(** * food-analyzer-mcp: the request dispatcher and the vision client

    A shallow embedding of [src/index.ts]: the values the handler sees after
    [req.json()], the runtime operations the handler applies to them
    (property access, optional chaining, truthiness, template literals,
    [JSON.stringify], [String.prototype.replace] with the fence pattern,
    [String.prototype.trim]), the vision client [analyzeFoodImage], the
    synchronous dispatcher [handleMCPRequest] and the handler given to
    [Deno.serve].  What the handler writes to the console is left out: it
    changes neither the response nor the calls made. *)

From Stdlib Require Import String Ascii List ZArith Bool DecimalString.
Import ListNotations.

Local Open Scope list_scope.
Local Open Scope string_scope.

Set Implicit Arguments.

(** ** Numbers

    The program never computes with a number: it tests one for truthiness,
    prints one in a template literal, and serialises them.  The number type of
    the runtime is therefore kept abstract, with exactly those operations. *)

Class JSNumber (Num : Type) : Type := {
  (** the value of an integer literal of the source, such as [-32600] *)
  of_Z : Z -> Num;
  (** ToBoolean: false on [+0], [-0] and [NaN] only *)
  number_to_boolean : Num -> bool;
  (** Number::toString, as a template literal prints it *)
  number_to_string : Num -> string;
  (** what JSON.stringify prints: the same digits, and [null] when not finite *)
  number_to_json : Num -> string
}.

(** ** Values

    The values of the language that JSON can hold, and [undefined].  An
    object is the list of its own properties in the order in which the runtime
    enumerates them, each name once. *)

Unset Elimination Schemes.

Inductive JSValue (Num : Type) : Type :=
| JUndefined
| JNull
| JBool (b : bool)
| JNum (n : Num)
| JStr (s : string)
| JArr (items : list (JSValue Num))
| JObj (props : list (string * JSValue Num)).

Set Elimination Schemes.

Arguments JUndefined {Num}.
Arguments JNull {Num}.
Arguments JBool {Num} b.
Arguments JStr {Num} s.

(** A thrown value: every value thrown in this program is an [Error] object
    (or one of its subclasses), of which only [message] is ever read. *)
Record Error : Type := mkError { message : string }.

Inductive Outcome (A : Type) : Type :=
| Return (a : A)
| Throw (e : Error).

Arguments Throw {A} e.

Definition obind {A B} (c : Outcome A) (k : A -> Outcome B) : Outcome B :=
  match c with
  | Return a => k a
  | Throw e => Throw e
  end.

(** The outcomes of a list of computations run from the left: the first that
    throws ends the run. *)
Fixpoint sequence {A} (l : list (Outcome A)) : Outcome (list A) :=
  match l with
  | [] => Return []
  | c :: rest =>
      obind c
        (fun a => obind (sequence rest) (fun others => Return (a :: others)))
  end.

Declare Scope outcome_scope.
Delimit Scope outcome_scope with outcome.
Notation "x <- c ;; k" := (obind c (fun x => k))
  (at level 61, c at next level, right associativity) : outcome_scope.

(** ** Strings *)

Definition dquote : string := String "034"%char "".
Definition newline : string := String "010"%char "".

Fixpoint join (sep : string) (l : list string) : string :=
  match l with
  | [] => ""
  | [s] => s
  | s :: rest => s ++ sep ++ join sep rest
  end.

(** [includes s t]: [s] occurs in [t] (String.prototype.includes). *)
Definition includes (s t : string) : Prop :=
  exists before after, t = before ++ s ++ after.

Definition is_empty (s : string) : bool :=
  match s with
  | "" => true
  | _ => false
  end.

Definition hex_digit (n : nat) : ascii :=
  match n with
  | 0 => "0" | 1 => "1" | 2 => "2" | 3 => "3" | 4 => "4"
  | 5 => "5" | 6 => "6" | 7 => "7" | 8 => "8" | 9 => "9"
  | 10 => "a" | 11 => "b" | 12 => "c" | 13 => "d" | 14 => "e"
  | _ => "f"
  end%char.

(** QuoteJSONString, one code unit at a time.  Strings are held as UTF-8, whose
    bytes above 127 are copied as they are. *)
Definition quote_char (c : ascii) : string :=
  let n := nat_of_ascii c in
  if Nat.eqb n 34 then "\" ++ dquote
  else if Nat.eqb n 92 then "\\"
  else if Nat.eqb n 8 then "\b"
  else if Nat.eqb n 12 then "\f"
  else if Nat.eqb n 10 then "\n"
  else if Nat.eqb n 13 then "\r"
  else if Nat.eqb n 9 then "\t"
  else if Nat.ltb n 32 then
    "\u00" ++ String (hex_digit (n / 16)) (String (hex_digit (n mod 16)) "")
  else String c "".

Fixpoint quote_body (s : string) : string :=
  match s with
  | "" => ""
  | String c rest => quote_char c ++ quote_body rest
  end.

Definition quote (s : string) : string := dquote ++ quote_body s ++ dquote.

(** ** Operations of the runtime on values *)

Section Values.

Context {Num : Type} `{JSNumber Num}.

Local Abbreviation Value := (JSValue Num).

Definition is_nullish (v : Value) : bool :=
  match v with
  | JUndefined | JNull => true
  | _ => false
  end.

Fixpoint lookup (key : string) (props : list (string * Value)) : Value :=
  match props with
  | [] => JUndefined
  | (k, v) :: rest => if String.eqb k key then v else lookup key rest
  end.

(** [v.key] for a [v] that is neither [null] nor [undefined], and a [key]
    that no prototype defines (every name this program reads is one):
    the own property of an object, [undefined] on anything else. *)
Definition prop (v : Value) (key : string) : Value :=
  match v with
  | JObj props => lookup key props
  | _ => JUndefined
  end.

(** [v.key]: a TypeError on [null] and [undefined]. *)
Definition get (v : Value) (key : string) : Outcome Value :=
  match v with
  | JUndefined =>
      Throw (mkError ("Cannot read properties of undefined (reading '"
                      ++ key ++ "')"))
  | JNull =>
      Throw (mkError ("Cannot read properties of null (reading '"
                      ++ key ++ "')"))
  | _ => Return (prop v key)
  end.

(** [const { key } = v], where the source calls the value [name]: a
    TypeError on [null] and [undefined]. *)
Definition destructure (v : Value) (name key : string) : Outcome Value :=
  match v with
  | JUndefined =>
      Throw (mkError ("Cannot destructure property '" ++ key ++ "' of '"
                      ++ name ++ "' as it is undefined."))
  | JNull =>
      Throw (mkError ("Cannot destructure property '" ++ key ++ "' of '"
                      ++ name ++ "' as it is null."))
  | _ => Return (prop v key)
  end.

(** [v?.key] *)
Definition opt_get (v : Value) (key : string) : Value :=
  if is_nullish v then JUndefined else prop v key.

(** [v?.[0]]: the first element of an array, the first character of a
    string (its first byte here; the program only reads a property of it,
    which no string has), the property [0] of an object. *)
Definition opt_first (v : Value) : Value :=
  match v with
  | JArr (x :: _) => x
  | JStr (String c _) => JStr (String c "")
  | JObj props => lookup "0" props
  | _ => JUndefined
  end.

(** ToBoolean *)
Definition to_boolean (v : Value) : bool :=
  match v with
  | JUndefined | JNull => false
  | JBool b => b
  | JNum n => number_to_boolean n
  | JStr s => negb (is_empty s)
  | JArr _ | JObj _ => true
  end.

(** [v === s] for a string literal [s] *)
Definition is_string (v : Value) (s : string) : bool :=
  match v with
  | JStr t => String.eqb t s
  | _ => false
  end.

(** Whether an object has a property of its own under [key]. *)
Definition has_own (key : string) (props : list (string * Value)) : bool :=
  existsb (fun kv => String.eqb (fst kv) key) props.

(** ToString, as a template literal applies it.  An array is joined with
    commas, [null] and [undefined] among its elements printing as nothing.
    An object is printed by the [toString] it inherits, unless it has a
    property of its own under that name: a value held in JSON is no function,
    so the conversion goes on to [valueOf], which gives no primitive value
    either (the one inherited returns the object, one of its own is no
    function), and throws. *)
Fixpoint to_string (v : Value) : Outcome string :=
  match v with
  | JUndefined => Return "undefined"
  | JNull => Return "null"
  | JBool true => Return "true"
  | JBool false => Return "false"
  | JNum n => Return (number_to_string n)
  | JStr s => Return s
  | JArr items =>
      obind
        (sequence
           (map (fun x => if is_nullish x then Return "" else to_string x)
              items))
        (fun parts => Return (join "," parts))
  | JObj props =>
      if has_own "toString" props then
        Throw (mkError "Cannot convert object to primitive value")
      else Return "[object Object]"
  end.

(** *** JSON.stringify(value, null, gap)

    [serialize gap indent v] is SerializeJSONProperty: [None] stands for
    [undefined], which an array prints as [null] and an object leaves
    out together with its key. *)
Definition wrap (gap indent : string) (opening closing : string)
           (parts : list string) : string :=
  match parts with
  | [] => opening ++ closing
  | _ =>
      if is_empty gap then opening ++ join "," parts ++ closing
      else
        let inner := indent ++ gap in
        opening ++ newline ++ inner
                ++ join ("," ++ newline ++ inner) parts
                ++ newline ++ indent ++ closing
  end.

Fixpoint serialize (gap indent : string) (v : Value) : option string :=
  match v with
  | JUndefined => None
  | JNull => Some "null"
  | JBool true => Some "true"
  | JBool false => Some "false"
  | JNum n => Some (number_to_json n)
  | JStr s => Some (quote s)
  | JArr items =>
      Some (wrap gap indent "[" "]"
              (map (fun x =>
                      match serialize gap (indent ++ gap) x with
                      | Some s => s
                      | None => "null"
                      end) items))
  | JObj props =>
      Some (wrap gap indent "{" "}"
              (flat_map (fun kv =>
                      match serialize gap (indent ++ gap) (snd kv) with
                      | Some s =>
                          [quote (fst kv) ++ ":"
                             ++ (if is_empty gap then "" else " ") ++ s]
                      | None => []
                      end) props))
  end.

(** [JSON.stringify(v)] *)
Definition JSON_stringify (v : Value) : option string := serialize "" "" v.

(** [JSON.stringify(v, null, 2)] *)
Definition JSON_stringify_pretty (v : Value) : option string :=
  serialize "  " "" v.

(** A string-valued property holding the result of a JSON.stringify call. *)
Definition of_stringified (r : option string) : Value :=
  match r with
  | Some s => JStr s
  | None => JUndefined
  end.

End Values.

(** ** String.prototype.replace with the fence pattern, and trim *)

Fixpoint strip_prefix (p s : string) : option string :=
  match p, s with
  | "", _ => Some s
  | String a p', String b s' =>
      if Ascii.eqb a b then strip_prefix p' s' else None
  | String _ _, "" => None
  end.

(** The length of the match of the pattern at the head of [s], [0] when there
    is none.  The pattern is an alternation, tried in order: three backquotes
    and [json], then three backquotes alone, each with an optional line feed
    after it. *)
Definition optional_newline (s : string) : nat :=
  match strip_prefix newline s with
  | Some _ => 1
  | None => 0
  end.

Definition fence_length (s : string) : nat :=
  match strip_prefix "```json" s with
  | Some rest => 7 + optional_newline rest
  | None =>
      match strip_prefix "```" s with
      | Some rest => 3 + optional_newline rest
      | None => 0
      end
  end.

(** The global replace by the empty string: a scan from the left, in which a
    match that starts at an index removes the characters it covers and the
    search resumes after them.  [skip] counts the characters still covered by
    the match in progress. *)
Fixpoint replace_from (skip : nat) (s : string) : string :=
  match s with
  | "" => ""
  | String c rest =>
      match skip with
      | S k => replace_from k rest
      | O =>
          match fence_length s with
          | S k => replace_from k rest
          | O => String c (replace_from O rest)
          end
      end
  end.

(** [s.replace(/```json\n?|```\n?/g, '')] *)
Definition replace_fences (s : string) : string := replace_from 0 s.

Definition bytes (l : list nat) : string :=
  fold_right (fun n s => String (ascii_of_nat n) s) "" l.

(** WhiteSpace and LineTerminator of the language, in UTF-8: TAB, LF, VT, FF,
    CR, SP, U+00A0, U+1680, U+2000 to U+200A, U+2028, U+2029, U+202F, U+205F,
    U+3000 and U+FEFF. *)
Definition white_space : list (list nat) :=
  [[9]; [10]; [11]; [12]; [13]; [32]; [194; 160]; [225; 154; 128];
   [226; 128; 128]; [226; 128; 129]; [226; 128; 130]; [226; 128; 131];
   [226; 128; 132]; [226; 128; 133]; [226; 128; 134]; [226; 128; 135];
   [226; 128; 136]; [226; 128; 137]; [226; 128; 138]; [226; 128; 168];
   [226; 128; 169]; [226; 128; 175]; [226; 129; 159]; [227; 128; 128];
   [239; 187; 191]].

(** The number of bytes of the first of [table] that [s] starts with. *)
Fixpoint head_length (table : list (list nat)) (s : string) : nat :=
  match table with
  | [] => 0
  | w :: others =>
      match strip_prefix (bytes w) s with
      | Some _ => List.length w
      | None => head_length others s
      end
  end.

Fixpoint drop_leading (table : list (list nat)) (skip : nat) (s : string)
  : string :=
  match s with
  | "" => ""
  | String c rest =>
      match skip with
      | S k => drop_leading table k rest
      | O =>
          match head_length table s with
          | S k => drop_leading table k rest
          | O => s
          end
      end
  end.

Fixpoint reverse (s acc : string) : string :=
  match s with
  | "" => acc
  | String c rest => reverse rest (String c acc)
  end.

(** [s.trim()] *)
Definition trim (s : string) : string :=
  let front := drop_leading white_space 0 s in
  reverse (drop_leading (map (@rev nat) white_space) 0 (reverse front "")) "".

(** ** The outbound call *)

Record FetchRequest : Type := mkFetchRequest {
  fetch_url : string;
  fetch_method : string;
  fetch_headers : list (string * string);
  fetch_body : option string
}.

Record FetchResponse (Num : Type) : Type := mkFetchResponse {
  ok : bool;
  status : Num;
  (** the outcome of [await response.json()] *)
  json : Outcome (JSValue Num)
}.

(** ** The inbound request and the response given back *)

Record Request (Num : Type) : Type := mkRequest {
  req_method : string;
  (** the outcome of [await req.json()] *)
  req_json : Outcome (JSValue Num)
}.

Record Response : Type := mkResponse {
  resp_status : Z;
  resp_headers : list (string * string);
  resp_body : option string
}.

(** [new Response(body, { headers })]: the status defaults to 200. *)
Definition new_Response (body : option string)
           (headers : list (string * string)) : Response :=
  mkResponse 200 headers body.

(** ** The trace of a request

    One entry for each call of [analyzeFoodImage] made while a request is
    handled, with the argument of the call and its outcome.  The program holds
    no such list; it is kept to state which requests reach the client. *)

Inductive Event (Num : Type) : Type :=
| Invoked (imageUrl : JSValue Num) (outcome : Outcome (JSValue Num)).

Definition M (Num A : Type) : Type :=
  list (Event Num) -> Outcome A * list (Event Num).

Definition mret {Num A} (a : A) : M Num A := fun tr => (Return a, tr).

Definition mbind {Num A B} (c : M Num A) (k : A -> M Num B) : M Num B :=
  fun tr =>
    match c tr with
    | (Return a, tr') => k a tr'
    | (Throw e, tr') => (Throw e, tr')
    end.

(** A synchronous computation inside an asynchronous one. *)
Definition lift {Num A} (c : Outcome A) : M Num A := fun tr => (c, tr).

(** [try { c } catch (error) { h error }] *)
Definition try_catch {Num A} (c : M Num A) (h : Error -> M Num A) : M Num A :=
  fun tr =>
    match c tr with
    | (Return a, tr') => (Return a, tr')
    | (Throw e, tr') => h e tr'
    end.

Declare Scope async_scope.
Delimit Scope async_scope with async.
Notation "x <- c ;; k" := (mbind c (fun x => k))
  (at level 61, c at next level, right associativity) : async_scope.

(** ** The program *)

Section Server.

Context {Num : Type} `{JSNumber Num}.

Local Abbreviation Value := (JSValue Num).

(** [JSON.parse] of the runtime: the value, or the SyntaxError thrown. *)
Variable JSON_parse : string -> Outcome Value.

(** [fetch] of the runtime: the response, or the error the promise is
    rejected with. *)
Variable fetch : FetchRequest -> Outcome (FetchResponse Num).

(** [Deno.env.get('OPENAI_API_KEY')] *)
Variable env_OPENAI_API_KEY : option string.

Definition OPENAI_API_KEY : string :=
  match env_OPENAI_API_KEY with
  | Some key => if is_empty key then "" else key
  | None => ""
  end.

Definition prompt : string :=
  "Analyze this food image and return ONLY a valid JSON object with these exact fields: name (string), description (string), calories (number), protein (number in grams), fat (number in grams), carbs (number in grams), fiber (number in grams or null), sugar (number in grams or null), sodium (number in mg or null), servingSize (string or null), ingredients (array of strings or null). Return only raw JSON, no markdown.".

Definition vision_request (imageUrl : Value) : FetchRequest :=
  {| fetch_url := "https://api.openai.com/v1/chat/completions";
     fetch_method := "POST";
     fetch_headers :=
       [("Content-Type", "application/json");
        ("Authorization", "Bearer " ++ OPENAI_API_KEY)];
     fetch_body :=
       JSON_stringify
         (JObj
            [("model", JStr "gpt-4o");
             ("messages",
              JArr
                [JObj
                   [("role", JStr "user");
                    ("content",
                     JArr
                       [JObj [("type", JStr "text"); ("text", JStr prompt)];
                        JObj [("type", JStr "image_url");
                              ("image_url", JObj [("url", imageUrl)])]])]]);
             ("max_tokens", JNum (of_Z 800))]) |}.

(** [content.replace(...)]: only a string has the method. *)
Definition clean (content : Value) : Outcome string :=
  match content with
  | JStr s => Return (trim (replace_fences s))
  | _ => Throw (mkError "content.replace is not a function")
  end.

Definition analyzeFoodImage (imageUrl : Value) : Outcome Value :=
  (response <- fetch (vision_request imageUrl) ;;
   if negb (ok response) then
     Throw (mkError ("OpenAI API error: "
                     ++ number_to_string (status response)))
   else
     data <- json response ;;
     choices <- get data "choices" ;;
     let content :=
       opt_get (opt_get (opt_first choices) "message") "content" in
     if negb (to_boolean content) then
       Throw (mkError "No content in OpenAI response")
     else
       cleanedContent <- clean content ;;
       JSON_parse cleanedContent)%outcome.

(** [await analyzeFoodImage(imageUrl)] *)
Definition await_analyzeFoodImage (imageUrl : Value) : M Num Value :=
  fun tr =>
    let outcome := analyzeFoodImage imageUrl in
    (outcome, tr ++ [Invoked imageUrl outcome])%list.

Definition error_envelope (id : Value) (code : Z) (msg : string) : Value :=
  JObj [("jsonrpc", JStr "2.0");
        ("id", id);
        ("error", JObj [("code", JNum (of_Z code)); ("message", JStr msg)])].

Definition result_envelope (id result : Value) : Value :=
  JObj [("jsonrpc", JStr "2.0"); ("id", id); ("result", result)].

Definition initialize_result : Value :=
  JObj [("protocolVersion", JStr "2024-11-05");
        ("capabilities", JObj [("tools", JObj [])]);
        ("serverInfo",
         JObj [("name", JStr "food-analyzer-mcp");
               ("version", JStr "1.0.0")])].

Definition tools_list_result : Value :=
  JObj
    [("tools",
      JArr
        [JObj
           [("name", JStr "analyze_food_image");
            ("description",
             JStr "Analyzes a food image and returns detailed nutritional information including macros (calories, protein, fat, carbs), micronutrients, and ingredients");
            ("inputSchema",
             JObj
               [("type", JStr "object");
                ("properties",
                 JObj
                   [("imageUrl",
                     JObj
                       [("type", JStr "string");
                        ("description",
                         JStr "The URL or base64 data URL of the food image to analyze (supports data:image/jpeg;base64,... format)")])]);
                ("required", JArr [JStr "imageUrl"])])]])].

Definition handleMCPRequest (request : Value) : Outcome Value :=
  (jsonrpc <- destructure request "request" "jsonrpc" ;;
   id <- destructure request "request" "id" ;;
   method <- destructure request "request" "method" ;;
   params <- destructure request "request" "params" ;;
   if negb (is_string jsonrpc "2.0") then
     Return (error_envelope id (-32600)
               "Invalid Request: jsonrpc must be 2.0")
   else if is_string method "initialize" then
     Return (result_envelope id initialize_result)
   else if is_string method "tools/list" then
     Return (result_envelope id tools_list_result)
   else if is_string method "tools/call" then
     Return (result_envelope id
               (JObj [("_async", JBool true);
                      ("toolName", opt_get params "name");
                      ("arguments", opt_get params "arguments")]))
   else
     printed <- to_string method ;;
     Return (error_envelope id (-32601)
               ("Method not found: " ++ printed)))%outcome.

Definition cors_headers : list (string * string) :=
  [("Access-Control-Allow-Origin", "*");
   ("Access-Control-Allow-Methods", "POST, GET, OPTIONS");
   ("Access-Control-Allow-Headers", "Content-Type")].

Definition json_headers : list (string * string) :=
  [("Content-Type", "application/json");
   ("Access-Control-Allow-Origin", "*")].

Definition tool_result (text : Value) (isError : bool) : Value :=
  JObj [("content", JArr [JObj [("type", JStr "text"); ("text", text)]]);
        ("isError", JBool isError)].

(** The body of the inner [try] of the handler. *)
Definition call_tool (mcpRequest args : Value) : M Num Response :=
  (let imageUrl := opt_get args "imageUrl" in
   id <- lift (get mcpRequest "id") ;;
   if negb (to_boolean imageUrl) then
     mret (new_Response
             (JSON_stringify
                (error_envelope id (-32602)
                   "Invalid params: imageUrl is required"))
             json_headers)
   else
     foodData <- await_analyzeFoodImage imageUrl ;;
     mret (new_Response
             (JSON_stringify
                (result_envelope id
                   (tool_result
                      (of_stringified (JSON_stringify_pretty foodData))
                      false)))
             json_headers))%async.

(** The [catch] of the inner [try]. *)
Definition tool_failed (mcpRequest : Value) (error : Error)
  : M Num Response :=
  (id <- lift (get mcpRequest "id") ;;
   mret (mkResponse 200 json_headers
           (JSON_stringify
              (result_envelope id
                 (tool_result
                    (JStr ("Error analyzing food: " ++ message error))
                    true)))))%async.

(** The statements after the [if] on the method, under the comment
    [Handle other MCP methods]. *)
Definition other_methods (mcpRequest : Value) : M Num Response :=
  (response <- lift (handleMCPRequest mcpRequest) ;;
   mret (new_Response (JSON_stringify response) json_headers))%async.

(** The statements under the comment [Non-MCP request (legacy support)]. *)
Definition legacy (body : Value) : M Num Response :=
  (image <- lift (destructure body "body" "image") ;;
   if to_boolean image then
     foodData <- await_analyzeFoodImage image ;;
     mret (new_Response (JSON_stringify foodData) json_headers)
   else
     mret (mkResponse 400 json_headers
             (JSON_stringify
                (JObj [("error", JStr "Invalid request format")]))))%async.

(** The [catch] of the outer [try]. *)
Definition server_error (error : Error) : M Num Response :=
  mret (mkResponse 500 json_headers
          (JSON_stringify
             (JObj [("error", JStr "Internal server error");
                    ("message", JStr (message error))]))).

(** The handler given to [Deno.serve]. *)
Definition serve (req : Request Num) : M Num Response :=
  if String.eqb (req_method req) "OPTIONS" then
    mret (new_Response None cors_headers)
  else
    try_catch
      (body <- lift (req_json req) ;;
       jsonrpc <- lift (get body "jsonrpc") ;;
       if is_string jsonrpc "2.0" then
         let mcpRequest := body in
         method <- lift (get mcpRequest "method") ;;
         if is_string method "tools/call" then
           params <- lift (get mcpRequest "params") ;;
           let toolName := opt_get params "name" in
           let args := opt_get params "arguments" in
           if is_string toolName "analyze_food_image" then
             try_catch (call_tool mcpRequest args) (tool_failed mcpRequest)
           else other_methods mcpRequest
         else other_methods mcpRequest
       else legacy body)%async
      server_error.

(** What a request gets: the response and the calls of the client. *)
Definition run (req : Request Num) : Outcome Response * list (Event Num) :=
  serve req [].

Definition POST (body : Value) : Request Num :=
  mkRequest "POST" (Return body).

(** [data.choices?.[0]?.message?.content] for a [data] other than [null]: the
    content the client reads from the reply. *)
Definition content_of (data : Value) : Value :=
  opt_get (opt_get (opt_first (prop data "choices")) "message") "content".

(** A computation that throws or ends in a response with the two headers of a
    JSON response. *)
Definition answers_json (c : M Num Response) : Prop :=
  forall tr,
    match c tr with
    | (Return resp, _) => resp_headers resp = json_headers
    | (Throw _, _) => True
    end.

End Server.

(** ** A runtime to run the program on

    Integers for the numbers, a parser that knows the texts it is given in a
    table and rejects every other one, and a network that either is down or
    gives one fixed reply. *)

#[export] Instance ZNumber : JSNumber Z := {|
  of_Z := fun z => z;
  number_to_boolean := fun z => negb (Z.eqb z 0);
  number_to_string := fun z => NilZero.string_of_int (Z.to_int z);
  number_to_json := fun z => NilZero.string_of_int (Z.to_int z)
|}.

Fixpoint parse_known (table : list (string * JSValue Z)) (text : string)
  : Outcome (JSValue Z) :=
  match table with
  | [] => Throw (mkError "Unexpected token")
  | (t, v) :: others =>
      if String.eqb t text then Return v else parse_known others text
  end.

Definition fetch_offline (_ : FetchRequest) : Outcome (FetchResponse Z) :=
  Throw (mkError "error sending request").

Definition fetch_replies (reply : FetchResponse Z) (_ : FetchRequest)
  : Outcome (FetchResponse Z) :=
  Return reply.

(** A reply of the vision endpoint whose first choice carries [content]. *)
Definition completion (content : JSValue Z) : JSValue Z :=
  JObj [("choices",
         JArr [JObj [("message",
                      JObj [("role", JStr "assistant");
                            ("content", content)])]])].

Definition tools_call (id name : JSValue Z) (arguments : JSValue Z)
  : JSValue Z :=
  JObj [("jsonrpc", JStr "2.0");
        ("id", id);
        ("method", JStr "tools/call");
        ("params", JObj [("name", name); ("arguments", arguments)])].

Definition text_of (r : option string) : string :=
  match r with
  | Some s => s
  | None => ""
  end.

Definition apple : JSValue Z :=
  JObj [("name", JStr "Apple"); ("calories", JNum 95%Z);
        ("protein", JNum 1%Z); ("fat", JNum 0%Z); ("carbs", JNum 25%Z)].

Definition apple_json : string := text_of (JSON_stringify apple).

(** The reply of a model that fences its answer. *)
Definition apple_reply : FetchResponse Z :=
  mkFetchResponse true 200%Z
    (Return (completion
               (JStr ("```json" ++ newline ++ apple_json ++ newline ++ "```")))).

Definition apple_parser : string -> Outcome (JSValue Z) :=
  parse_known [(apple_json, apple)].

Definition photo : JSValue Z := JStr "https://example.com/apple.jpg".

Definition initialize_request : JSValue Z :=
  JObj [("jsonrpc", JStr "2.0");
        ("id", JNum 1%Z);
        ("method", JStr "initialize");
        ("params", JObj [("protocolVersion", JStr "1999-01-01")])].

Definition old_version_request : JSValue Z :=
  JObj [("jsonrpc", JStr "1.0");
        ("id", JNum 1%Z);
        ("method", JStr "initialize")].

Definition unknown_method_request : JSValue Z :=
  JObj [("jsonrpc", JStr "2.0");
        ("id", JStr "a");
        ("method", JStr "foo/bar")].

(** A method that is an object with a [toString] of its own. *)
Definition unprintable_method_request : JSValue Z :=
  JObj [("jsonrpc", JStr "2.0");
        ("id", JNum 1%Z);
        ("method", JObj [("toString", JNum 1%Z)])].

(** ** The words of the specification on the cleaning

    The specification has the client strip the fence markers that lead and
    trail the content.  [spec_strip_outer_fences] does that and no more, to be
    compared with [replace_fences]. *)

Definition spec_strip_leading (s : string) : string :=
  match strip_prefix "```json" s with
  | Some rest => rest
  | None =>
      match strip_prefix "```" s with
      | Some rest => rest
      | None => s
      end
  end.

Definition spec_strip_trailing (s : string) : string :=
  match strip_prefix "```" (reverse s "") with
  | Some rest => reverse rest ""
  | None => s
  end.

Definition spec_strip_outer_fences (s : string) : string :=
  spec_strip_trailing (spec_strip_leading s).

(** ** The shape of an answer of the protocol

    A response envelope for a request of id [id]: the version, the id of the
    request, and one of [result] and [error], not both; an [error] is a code,
    one of the three the program uses, and a message. *)

Definition is_envelope {Num : Type} `{JSNumber Num}
           (id envelope : JSValue Num) : Prop :=
  prop envelope "jsonrpc" = JStr "2.0"
  /\ prop envelope "id" = id
  /\ ((prop envelope "result" <> JUndefined
       /\ prop envelope "error" = JUndefined)
      \/ (prop envelope "result" = JUndefined
          /\ exists code msg,
               prop envelope "error"
                 = JObj [("code", JNum (of_Z code)); ("message", JStr msg)]
               /\ In code [-32600; -32601; -32602]%Z)).

(** The body of the response with status 500. *)
Definition internal_error {Num : Type} `{JSNumber Num} (e : Error)
  : option string :=
  JSON_stringify
    (JObj [("error", @JStr Num "Internal server error");
           ("message", JStr (message e))]).

(** The body of the response with status 400. *)
Definition invalid_format {Num : Type} `{JSNumber Num} : option string :=
  JSON_stringify (JObj [("error", @JStr Num "Invalid request format")]).

(** An object text, bare and as a model fences it. *)
Definition bare (q : string) : string := "{" ++ q ++ "}".

Definition fenced (q : string) : string :=
  "```json" ++ newline ++ "{" ++ q ++ "}" ++ newline ++ "```".

Definition plainly_fenced (q : string) : string :=
  "```" ++ newline ++ "{" ++ q ++ "}" ++ newline ++ "```".

(** ** More requests to run the program on *)

Definition tools_list_request : JSValue Z :=
  JObj [("jsonrpc", JStr "2.0");
        ("id", JNum 5%Z);
        ("method", JStr "tools/list")].

Definition analyze_request (arguments : JSValue Z) : JSValue Z :=
  tools_call (JNum 9%Z) (JStr "analyze_food_image") arguments.

(** A reply whose content is a number. *)
Definition number_reply : FetchResponse Z :=
  mkFetchResponse true 200%Z (Return (completion (JNum 42%Z))).

(** * Properties

    A request in the statements below is one that the handler reads the body
    of: it is sent with any HTTP method other than OPTIONS, and [body] is what
    [req.json()] gives. *)

Section Properties.

Context {Num : Type} `{JSNumber Num}.

Local Abbreviation Value := (JSValue Num).

Variable JSON_parse : string -> Outcome Value.
Variable fetch : FetchRequest -> Outcome (FetchResponse Num).
Variable env_OPENAI_API_KEY : option string.

Local Abbreviation analyze :=
  (analyzeFoodImage JSON_parse fetch env_OPENAI_API_KEY).
Local Abbreviation handle := (run JSON_parse fetch env_OPENAI_API_KEY).

(** *** Values *)

Lemma is_string_true (v : Value) (s : string) :
  is_string v s = true <-> v = JStr s.
Proof.
  destruct v; simpl; split; intro E; try discriminate.
  - apply String.eqb_eq in E. now subst.
  - injection E as ->. apply String.eqb_refl.
Qed.

Lemma is_string_false (v : Value) (s : string) :
  is_string v s = false <-> v <> JStr s.
Proof.
  rewrite <- is_string_true. destruct (is_string v s); split; congruence.
Qed.

Lemma prop_of_object (v : Value) (key : string) :
  prop v key <> JUndefined -> exists props, v = JObj props.
Proof.
  destruct v; simpl; try congruence. eauto.
Qed.

Lemma get_of_object (props : list (string * Value)) (key : string) :
  get (JObj props) key = Return (prop (JObj props) key).
Proof. reflexivity. Qed.

Lemma get_of_value (v : Value) (key : string) :
  is_nullish v = false -> get v key = Return (prop v key).
Proof. destruct v; simpl; intro; (discriminate || reflexivity). Qed.

Lemma destructure_of_value (v : Value) (name key : string) :
  is_nullish v = false -> destructure v name key = Return (prop v key).
Proof. destruct v; simpl; intro; (discriminate || reflexivity). Qed.

Lemma destructure_of_object (props : list (string * Value))
      (name key : string) :
  destructure (JObj props) name key = Return (prop (JObj props) key).
Proof. reflexivity. Qed.

Lemma includes_suffix (prefix s : string) : includes s (prefix ++ s).
Proof.
  exists prefix, "". f_equal.
  induction s as [|c s IH]; simpl; [reflexivity | now f_equal].
Qed.

(** *** The dispatcher *)

Lemma handleMCPRequest_version (props : list (string * Value)) :
  prop (JObj props) "jsonrpc" <> JStr "2.0" ->
  handleMCPRequest (JObj props) =
    Return (error_envelope (prop (JObj props) "id") (-32600)
              "Invalid Request: jsonrpc must be 2.0").
Proof.
  intro E. apply is_string_false in E.
  unfold handleMCPRequest. rewrite !destructure_of_object.
  unfold obind. now rewrite E.
Qed.

Lemma handleMCPRequest_initialize (props : list (string * Value)) :
  prop (JObj props) "jsonrpc" = JStr "2.0" ->
  prop (JObj props) "method" = JStr "initialize" ->
  handleMCPRequest (JObj props) =
    Return (result_envelope (prop (JObj props) "id") initialize_result).
Proof.
  intros E1 E2.
  unfold handleMCPRequest. rewrite !destructure_of_object.
  unfold obind. now rewrite E1, E2.
Qed.


Lemma handleMCPRequest_unknown (props : list (string * Value))
      (printed : string) :
  prop (JObj props) "jsonrpc" = JStr "2.0" ->
  prop (JObj props) "method" <> JStr "initialize" ->
  prop (JObj props) "method" <> JStr "tools/list" ->
  prop (JObj props) "method" <> JStr "tools/call" ->
  to_string (prop (JObj props) "method") = Return printed ->
  handleMCPRequest (JObj props) =
    Return (error_envelope (prop (JObj props) "id") (-32601)
              ("Method not found: " ++ printed)).
Proof.
  intros E1 E2 E3 E4 E5.
  apply is_string_false in E2, E3, E4.
  unfold handleMCPRequest. rewrite !destructure_of_object.
  unfold obind. now rewrite E1, E2, E3, E4, E5.
Qed.

(** *** The handler, branch by branch *)

Section Branches.

Variable req : Request Num.
Variable tr : list (Event Num).
Hypothesis not_preflight : req_method req <> "OPTIONS".

Local Abbreviation serve' :=
  (serve JSON_parse fetch env_OPENAI_API_KEY).

Lemma serve_unreadable (e : Error) :
  req_json req = Throw e ->
  serve' req tr = server_error e tr.
Proof.
  intro E. unfold serve.
  rewrite (proj2 (String.eqb_neq _ _) not_preflight).
  unfold try_catch, mbind, lift. now rewrite E.
Qed.

Lemma serve_legacy (body : Value) :
  req_json req = Return body ->
  is_nullish body = false ->
  prop body "jsonrpc" <> JStr "2.0" ->
  serve' req tr =
    try_catch (legacy JSON_parse fetch env_OPENAI_API_KEY body)
      server_error tr.
Proof.
  intros E Hbody Hrpc. apply is_string_false in Hrpc.
  unfold serve.
  rewrite (proj2 (String.eqb_neq _ _) not_preflight).
  unfold try_catch, mbind, lift.
  rewrite E, get_of_value by assumption. cbv iota beta. now rewrite Hrpc.
Qed.

Lemma serve_other_method (props : list (string * Value)) :
  req_json req = Return (JObj props) ->
  prop (JObj props) "jsonrpc" = JStr "2.0" ->
  prop (JObj props) "method" <> JStr "tools/call" ->
  serve' req tr = try_catch (other_methods (JObj props)) server_error tr.
Proof.
  intros E Hrpc Hmethod. apply is_string_false in Hmethod.
  unfold serve.
  rewrite (proj2 (String.eqb_neq _ _) not_preflight).
  unfold try_catch, mbind, lift. rewrite E, !get_of_object, Hrpc.
  simpl is_string. cbv iota beta. now rewrite Hmethod.
Qed.

Lemma serve_other_tool (props : list (string * Value)) :
  req_json req = Return (JObj props) ->
  prop (JObj props) "jsonrpc" = JStr "2.0" ->
  prop (JObj props) "method" = JStr "tools/call" ->
  opt_get (prop (JObj props) "params") "name"
    <> JStr "analyze_food_image" ->
  serve' req tr = try_catch (other_methods (JObj props)) server_error tr.
Proof.
  intros E Hrpc Hmethod Hname. apply is_string_false in Hname.
  unfold serve.
  rewrite (proj2 (String.eqb_neq _ _) not_preflight).
  unfold try_catch, mbind, lift.
  rewrite E, !get_of_object, Hrpc, Hmethod.
  simpl is_string. cbv iota beta. now rewrite Hname.
Qed.

Lemma serve_tool (props : list (string * Value)) :
  req_json req = Return (JObj props) ->
  prop (JObj props) "jsonrpc" = JStr "2.0" ->
  prop (JObj props) "method" = JStr "tools/call" ->
  opt_get (prop (JObj props) "params") "name"
    = JStr "analyze_food_image" ->
  serve' req tr =
    try_catch
      (try_catch
         (call_tool JSON_parse fetch env_OPENAI_API_KEY (JObj props)
            (opt_get (prop (JObj props) "params") "arguments"))
         (tool_failed (JObj props)))
      server_error tr.
Proof.
  intros E Hrpc Hmethod Hname.
  unfold serve.
  rewrite (proj2 (String.eqb_neq _ _) not_preflight).
  unfold try_catch, mbind, lift.
  rewrite E, !get_of_object, Hrpc, Hmethod.
  simpl is_string. cbv iota beta. rewrite Hname.
  simpl is_string. cbv iota beta. reflexivity.
Qed.

End Branches.

(** The two tries around the call of the tool, run. *)
Lemma tool_call_runs (props : list (string * Value)) (tr : list (Event Num)) :
  let id := prop (JObj props) "id" in
  let imageUrl :=
    opt_get (opt_get (prop (JObj props) "params") "arguments") "imageUrl" in
  try_catch
    (try_catch
       (call_tool JSON_parse fetch env_OPENAI_API_KEY (JObj props)
          (opt_get (prop (JObj props) "params") "arguments"))
       (tool_failed (JObj props)))
    server_error tr =
  if to_boolean imageUrl then
    (Return
       (mkResponse 200 json_headers
          (JSON_stringify
             (result_envelope id
                match analyze imageUrl with
                | Return foodData =>
                    tool_result
                      (of_stringified (JSON_stringify_pretty foodData)) false
                | Throw error =>
                    tool_result
                      (JStr ("Error analyzing food: " ++ message error)) true
                end))),
     (tr ++ [Invoked imageUrl (analyze imageUrl)])%list)
  else
    (Return
       (mkResponse 200 json_headers
          (JSON_stringify
             (error_envelope id (-32602)
                "Invalid params: imageUrl is required"))),
     tr).
Proof.
  intros id imageUrl.
  unfold call_tool, tool_failed, try_catch, mbind, lift, mret,
    await_analyzeFoodImage, new_Response.
  rewrite !get_of_object. fold id imageUrl.
  destruct (to_boolean imageUrl); simpl negb; cbv iota beta.
  - now destruct (analyze imageUrl).
  - reflexivity.
Qed.

(** The statements of the legacy request, run. *)
Lemma legacy_runs (body : Value) (tr : list (Event Num)) :
  is_nullish body = false ->
  let image := prop body "image" in
  try_catch (legacy JSON_parse fetch env_OPENAI_API_KEY body) server_error tr =
  if to_boolean image then
    (Return
       match analyze image with
       | Return foodData =>
           mkResponse 200 json_headers (JSON_stringify foodData)
       | Throw error =>
           mkResponse 500 json_headers
             (JSON_stringify
                (JObj [("error", JStr "Internal server error");
                       ("message", JStr (message error))]))
       end,
     (tr ++ [Invoked image (analyze image)])%list)
  else
    (Return
       (mkResponse 400 json_headers
          (JSON_stringify (JObj [("error", JStr "Invalid request format")]))),
     tr).
Proof.
  intros Hbody image.
  unfold legacy, try_catch, mbind, lift, mret, await_analyzeFoodImage,
    server_error, new_Response.
  rewrite destructure_of_value by assumption. fold image.
  destruct (to_boolean image); cbv iota beta.
  - now destruct (analyze image).
  - reflexivity.
Qed.

(** The statements for the other methods, run. *)
Lemma other_methods_run (props : list (string * Value)) (envelope : Value)
      (tr : list (Event Num)) :
  handleMCPRequest (JObj props) = Return envelope ->
  try_catch (other_methods (JObj props)) server_error tr =
  (Return (mkResponse 200 json_headers (JSON_stringify envelope)), tr).
Proof.
  intro E. unfold other_methods, try_catch, mbind, lift, mret, new_Response.
  now rewrite E.
Qed.

(** *** Every path of the handler ends in a response *)

Lemma answers_json_bind {A : Type} (o : Outcome A) (k : A -> M Num Response) :
  (forall a, answers_json (k a)) -> answers_json (mbind (lift o) k).
Proof.
  intros Hk tr. unfold mbind, lift. destruct o as [a|e]; [apply Hk | exact I].
Qed.

Lemma answers_json_await (v : Value) (k : Value -> M Num Response) :
  (forall a, answers_json (k a)) ->
  answers_json (mbind (await_analyzeFoodImage JSON_parse fetch
                         env_OPENAI_API_KEY v) k).
Proof.
  intros Hk tr. unfold mbind, await_analyzeFoodImage.
  destruct (analyze v) as [a|e]; [apply Hk | exact I].
Qed.

Lemma answers_json_ret (resp : Response) :
  resp_headers resp = json_headers ->
  answers_json (mret resp : M Num Response).
Proof. intros E tr. exact E. Qed.

Lemma answers_json_try (c : M Num Response) (h : Error -> M Num Response) :
  answers_json c -> (forall e, answers_json (h e)) ->
  answers_json (try_catch c h).
Proof.
  intros Hc Hh tr. unfold try_catch. specialize (Hc tr).
  destruct (c tr) as [[resp|e] tr']; [exact Hc | apply Hh].
Qed.

Lemma answers_json_serve (req : Request Num) (tr : list (Event Num)) :
  req_method req <> "OPTIONS" ->
  exists resp tr',
    serve JSON_parse fetch env_OPENAI_API_KEY req tr = (Return resp, tr')
    /\ resp_headers resp = json_headers.
Proof.
  intro Hm. unfold serve. rewrite (proj2 (String.eqb_neq _ _) Hm).
  match goal with
  | |- context [try_catch ?c server_error] => set (inner := c)
  end.
  assert (Hc : answers_json inner).
  { subst inner. apply answers_json_bind; intro body.
    apply answers_json_bind; intro jsonrpc.
    destruct (is_string jsonrpc "2.0").
    - assert (Hother : answers_json (other_methods body)).
      { unfold other_methods. apply answers_json_bind; intro response.
        now apply answers_json_ret. }
      apply answers_json_bind; intro method.
      destruct (is_string method "tools/call"); [|exact Hother].
      apply answers_json_bind; intro params.
      destruct (is_string (opt_get params "name") "analyze_food_image");
        [|exact Hother].
      apply answers_json_try.
      + unfold call_tool. apply answers_json_bind; intro id.
        destruct (negb _); [now apply answers_json_ret|].
        apply answers_json_await; intro foodData.
        now apply answers_json_ret.
      + intro e. unfold tool_failed. apply answers_json_bind; intro id.
        now apply answers_json_ret.
    - unfold legacy. apply answers_json_bind; intro image.
      destruct (to_boolean image); [|now apply answers_json_ret].
      apply answers_json_await; intro foodData.
      now apply answers_json_ret. }
  unfold try_catch. specialize (Hc tr).
  destruct (inner tr) as [[resp|e] tr'].
  - exists resp, tr'. split; [reflexivity | exact Hc].
  - unfold server_error, mret. eexists _, _. split; reflexivity.
Qed.

(** *** The protocol methods *)

(** A body whose [jsonrpc] is a string is an object. *)
Lemma envelope_is_object (body : Value) :
  prop body "jsonrpc" = JStr "2.0" -> exists props, body = JObj props.
Proof.
  intro E. apply prop_of_object with (key := "jsonrpc"). rewrite E. discriminate.
Qed.

(** C10. A request with [jsonrpc] 2.0 and method [initialize] is answered,
    whatever its [params] and its other fields are, with status 200 and the
    envelope written out below: it has no [error], and its [result] has the
    string 2024-11-05 as [protocolVersion] and the empty object as
    [capabilities.tools].  The request is sent with any HTTP method other than
    OPTIONS, which is answered before the body is read. *)
Theorem initialize_is_static (req : Request Num) (body : Value) :
  req_method req <> "OPTIONS" ->
  req_json req = Return body ->
  prop body "jsonrpc" = JStr "2.0" ->
  prop body "method" = JStr "initialize" ->
  let envelope : Value :=
    JObj [("jsonrpc", JStr "2.0");
          ("id", prop body "id");
          ("result",
           JObj [("protocolVersion", JStr "2024-11-05");
                 ("capabilities", JObj [("tools", JObj [])]);
                 ("serverInfo",
                  JObj [("name", JStr "food-analyzer-mcp");
                        ("version", JStr "1.0.0")])])] in
  handle req =
    (Return (mkResponse 200 json_headers (JSON_stringify envelope)), [])
  /\ prop (prop envelope "result") "protocolVersion" = JStr "2024-11-05"
  /\ prop (prop (prop envelope "result") "capabilities") "tools" = JObj []
  /\ prop envelope "error" = JUndefined.
Proof.
  intros Hm E Hrpc Hmethod envelope.
  destruct (envelope_is_object _ Hrpc) as [props ->].
  split; [|repeat split; reflexivity].
  unfold run. rewrite serve_other_method with (props := props);
    [|assumption|assumption|assumption|rewrite Hmethod; discriminate].
  apply other_methods_run. now apply handleMCPRequest_initialize.
Qed.

(** C9, amended. A request, not a preflight, with [jsonrpc] 2.0 whose method
    is none of [initialize], [tools/list] and [tools/call], and is a string
    or any other value that a template literal can print ([printed] being
    what it prints), is answered with status 200 and the envelope written
    out below: it has no [result], the code of its [error] is -32601 and the
    message is [Method not found: ] followed by [printed].  The message
    therefore contains the method as printed, which for a method that is a
    string is that string. *)
Theorem unknown_method_is_named (req : Request Num) (body : Value)
        (printed : string) :
  req_method req <> "OPTIONS" ->
  req_json req = Return body ->
  prop body "jsonrpc" = JStr "2.0" ->
  prop body "method" <> JStr "initialize" ->
  prop body "method" <> JStr "tools/list" ->
  prop body "method" <> JStr "tools/call" ->
  to_string (prop body "method") = Return printed ->
  let envelope : Value :=
    JObj [("jsonrpc", JStr "2.0");
          ("id", prop body "id");
          ("error",
           JObj [("code", JNum (of_Z (-32601)));
                 ("message", JStr ("Method not found: " ++ printed))])] in
  handle req =
    (Return (mkResponse 200 json_headers (JSON_stringify envelope)), [])
  /\ prop (prop envelope "error") "code" = JNum (of_Z (-32601))
  /\ (exists msg,
        prop (prop envelope "error") "message" = JStr msg
        /\ includes printed msg)
  /\ prop envelope "result" = JUndefined
  /\ (forall m, prop body "method" = JStr m -> printed = m).
Proof.
  intros Hm E Hrpc H1 H2 H3 Hprinted envelope.
  destruct (envelope_is_object _ Hrpc) as [props ->].
  split; [|split; [reflexivity|split; [|split; [reflexivity|]]]].
  - unfold run. rewrite serve_other_method with (props := props);
      try assumption.
    apply other_methods_run. now apply handleMCPRequest_unknown.
  - exists ("Method not found: " ++ printed).
    split; [reflexivity | apply includes_suffix].
  - intros m Hstring. rewrite Hstring in Hprinted. now injection Hprinted.
Qed.


(** *** The call of the tool *)

(** What a call of [analyze_food_image] gets, by the truth value of its
    [imageUrl]. *)
Lemma tool_call_answer (req : Request Num) (body : Value) :
  req_method req <> "OPTIONS" ->
  req_json req = Return body ->
  prop body "jsonrpc" = JStr "2.0" ->
  prop body "method" = JStr "tools/call" ->
  opt_get (prop body "params") "name" = JStr "analyze_food_image" ->
  let id := prop body "id" in
  let imageUrl :=
    opt_get (opt_get (prop body "params") "arguments") "imageUrl" in
  handle req =
  if to_boolean imageUrl then
    (Return
       (mkResponse 200 json_headers
          (JSON_stringify
             (result_envelope id
                match analyze imageUrl with
                | Return foodData =>
                    tool_result
                      (of_stringified (JSON_stringify_pretty foodData)) false
                | Throw error =>
                    tool_result
                      (JStr ("Error analyzing food: " ++ message error)) true
                end))),
     [Invoked imageUrl (analyze imageUrl)])
  else
    (Return
       (mkResponse 200 json_headers
          (JSON_stringify
             (error_envelope id (-32602)
                "Invalid params: imageUrl is required"))),
     []).
Proof.
  intros Hm E Hrpc Hmethod Hname.
  destruct (envelope_is_object _ Hrpc) as [props ->].
  unfold run. rewrite serve_tool with (props := props); try assumption.
  apply (tool_call_runs props []).
Qed.

(** C4. A [tools/call] request, not a preflight, with [jsonrpc] 2.0 that
    names [analyze_food_image] and has no [params.arguments.imageUrl] (no
    [arguments], or [arguments] without the property) is answered with
    status 200 and the envelope written out below, which has no [result] and
    whose [error] has the code -32602 and the message
    [Invalid params: imageUrl is required]; the client is not called. *)
Theorem missing_imageUrl_is_invalid_params (req : Request Num)
        (body : Value) :
  req_method req <> "OPTIONS" ->
  req_json req = Return body ->
  prop body "jsonrpc" = JStr "2.0" ->
  prop body "method" = JStr "tools/call" ->
  opt_get (prop body "params") "name" = JStr "analyze_food_image" ->
  opt_get (opt_get (prop body "params") "arguments") "imageUrl"
    = JUndefined ->
  let envelope : Value :=
    JObj [("jsonrpc", JStr "2.0");
          ("id", prop body "id");
          ("error",
           JObj [("code", JNum (of_Z (-32602)));
                 ("message",
                  JStr "Invalid params: imageUrl is required")])] in
  handle req =
    (Return (mkResponse 200 json_headers (JSON_stringify envelope)), [])
  /\ prop (prop envelope "error") "code" = JNum (of_Z (-32602))
  /\ prop (prop envelope "error") "message"
     = JStr "Invalid params: imageUrl is required"
  /\ prop envelope "result" = JUndefined.
Proof.
  intros Hm E Hrpc Hmethod Hname Hurl envelope.
  split; [|repeat split; reflexivity].
  rewrite (tool_call_answer _ Hm E Hrpc Hmethod Hname), Hurl.
  reflexivity.
Qed.

(** C2. For a [tools/call] request, not a preflight, with [jsonrpc] 2.0 that
    names [analyze_food_image] and has an [imageUrl], if the client, called
    for it while the request is handled, throws [error], then the
    response has status 200 and carries the envelope written out below: it
    has no [error], and its [result] has [isError] true and, as the text of
    its first content, [Error analyzing food: ] followed by the message of
    [error]. *)
Theorem tool_failure_is_a_result (req : Request Num) (body : Value)
        (error : Error) :
  req_method req <> "OPTIONS" ->
  req_json req = Return body ->
  prop body "jsonrpc" = JStr "2.0" ->
  prop body "method" = JStr "tools/call" ->
  opt_get (prop body "params") "name" = JStr "analyze_food_image" ->
  let imageUrl :=
    opt_get (opt_get (prop body "params") "arguments") "imageUrl" in
  imageUrl <> JUndefined ->
  In (Invoked imageUrl (Throw error)) (snd (handle req)) ->
  let envelope : Value :=
    JObj [("jsonrpc", JStr "2.0");
          ("id", prop body "id");
          ("result",
           JObj [("content",
                  JArr [JObj [("type", JStr "text");
                              ("text",
                               JStr ("Error analyzing food: "
                                       ++ message error))]]);
                 ("isError", JBool true)])] in
  fst (handle req)
    = Return (mkResponse 200 json_headers (JSON_stringify envelope))
  /\ prop envelope "error" = JUndefined
  /\ prop (prop envelope "result") "isError" = JBool true
  /\ prop (opt_first (prop (prop envelope "result") "content")) "text"
     = JStr ("Error analyzing food: " ++ message error).
Proof.
  intros Hm E Hrpc Hmethod Hname imageUrl _ Hcall envelope.
  split; [|repeat split; reflexivity].
  rewrite (tool_call_answer _ Hm E Hrpc Hmethod Hname) in *.
  fold imageUrl in Hcall |- *.
  destruct (to_boolean imageUrl); simpl in Hcall |- *; [|contradiction].
  destruct Hcall as [Hcall|[]].
  injection Hcall as ->. reflexivity.
Qed.

(** C3. For a [tools/call] request, not a preflight, with [jsonrpc] 2.0 that
    names [analyze_food_image] and has an [imageUrl], if the client, called
    for it while the request is handled, returns an object, then the
    response has status 200 and carries the envelope written out below: it
    has no [error], and its [result] has [isError] false and, as the text of
    its first content, the serialization of that object by
    [JSON.stringify(foodData, null, 2)]. *)
Theorem tool_success_carries_the_record (req : Request Num) (body : Value)
        (fields : list (string * Value)) :
  req_method req <> "OPTIONS" ->
  req_json req = Return body ->
  prop body "jsonrpc" = JStr "2.0" ->
  prop body "method" = JStr "tools/call" ->
  opt_get (prop body "params") "name" = JStr "analyze_food_image" ->
  let imageUrl :=
    opt_get (opt_get (prop body "params") "arguments") "imageUrl" in
  imageUrl <> JUndefined ->
  In (Invoked imageUrl (Return (JObj fields))) (snd (handle req)) ->
  exists text,
    let envelope : Value :=
      JObj [("jsonrpc", JStr "2.0");
            ("id", prop body "id");
            ("result",
             JObj [("content",
                    JArr [JObj [("type", JStr "text");
                                ("text", JStr text)]]);
                   ("isError", JBool false)])] in
    JSON_stringify_pretty (JObj fields) = Some text
    /\ fst (handle req)
       = Return (mkResponse 200 json_headers (JSON_stringify envelope))
    /\ prop envelope "error" = JUndefined
    /\ prop (prop envelope "result") "isError" = JBool false
    /\ prop (opt_first (prop (prop envelope "result") "content")) "text"
       = JStr text.
Proof.
  intros Hm E Hrpc Hmethod Hname imageUrl _ Hcall.
  eexists. intro envelope. split; [reflexivity|].
  split; [|repeat split; reflexivity].
  rewrite (tool_call_answer _ Hm E Hrpc Hmethod Hname) in *.
  fold imageUrl in Hcall |- *.
  destruct (to_boolean imageUrl); simpl in Hcall |- *; [|contradiction].
  destruct Hcall as [Hcall|[]].
  injection Hcall as ->. reflexivity.
Qed.

(** *** Requests outside the protocol *)

(** C8, amended. For a request, not a preflight, whose body has no [jsonrpc]
    equal to the string 2.0 and has an [image] that is truthy (not the empty
    string, [0], [false] or [null]), the handler calls the client once, with that very
    value; when the call returns [foodData], the response has status 200 and
    [JSON.stringify(foodData)] as its body, with no envelope around it. *)
Theorem legacy_image_reaches_the_client (req : Request Num) (body : Value) :
  req_method req <> "OPTIONS" ->
  req_json req = Return body ->
  prop body "jsonrpc" <> JStr "2.0" ->
  to_boolean (prop body "image") = true ->
  snd (handle req)
    = [Invoked (prop body "image") (analyze (prop body "image"))]
  /\ forall foodData,
       analyze (prop body "image") = Return foodData ->
       fst (handle req)
         = Return (mkResponse 200 json_headers (JSON_stringify foodData)).
Proof.
  intros Hm E Hrpc Himage.
  assert (Hbody : is_nullish body = false)
    by (destruct body; (discriminate || reflexivity)).
  unfold run. rewrite serve_legacy with (body := body) by assumption.
  rewrite legacy_runs by assumption. rewrite Himage. simpl.
  split; [reflexivity|]. now intros foodData ->.
Qed.

(** C1, amended. [handleMCPRequest], called on a request object whose
    [jsonrpc] is not the string 2.0, returns the envelope written out below,
    whose [error] has the code -32600 and the message
    [Invalid Request: jsonrpc must be 2.0].  The handler does not call it on
    such a body: what it does is what the statements for a legacy request
    do, inside the outer [try].  Without a truthy [image] the response has
    status 400 and the body [{error: 'Invalid request format'}], and the
    client is not called; with one, the client is called once with the image,
    and the response has status 200 and the value of the client as its body,
    or status 500 and the message of the error the client throws. *)
Theorem version_check_is_behind_the_gate (req : Request Num)
        (props : list (string * Value)) :
  req_method req <> "OPTIONS" ->
  req_json req = Return (JObj props) ->
  prop (JObj props) "jsonrpc" <> JStr "2.0" ->
  let image := prop (JObj props) "image" in
  handleMCPRequest (JObj props)
    = Return
        (JObj [("jsonrpc", JStr "2.0");
               ("id", prop (JObj props) "id");
               ("error",
                JObj [("code", JNum (of_Z (-32600)));
                      ("message",
                       JStr "Invalid Request: jsonrpc must be 2.0")])])
  /\ (forall tr,
        serve JSON_parse fetch env_OPENAI_API_KEY req tr
          = try_catch
              (legacy JSON_parse fetch env_OPENAI_API_KEY (JObj props))
              server_error tr)
  /\ (to_boolean image = false ->
      handle req =
        (Return
           (mkResponse 400 json_headers
              (JSON_stringify
                 (JObj [("error", JStr "Invalid request format")]))),
         []))
  /\ (to_boolean image = true ->
      snd (handle req) = [Invoked image (analyze image)]
      /\ (forall foodData,
            analyze image = Return foodData ->
            fst (handle req)
              = Return
                  (mkResponse 200 json_headers (JSON_stringify foodData)))
      /\ (forall e,
            analyze image = Throw e ->
            fst (handle req)
              = Return
                  (mkResponse 500 json_headers
                     (JSON_stringify
                        (JObj [("error", JStr "Internal server error");
                               ("message", JStr (message e))]))))).
Proof.
  intros Hm E Hrpc image.
  split; [now apply handleMCPRequest_version|].
  split; [intro tr; now apply serve_legacy|].
  unfold run.
  rewrite serve_legacy with (body := JObj props) by (assumption || reflexivity).
  rewrite legacy_runs by reflexivity. fold image.
  split; intro Himage; rewrite Himage; [reflexivity|].
  split; [reflexivity|]. split.
  - now intros foodData ->.
  - now intros e ->.
Qed.

(** C7, amended. Every request gets a response, and every response carries
    [Access-Control-Allow-Origin: *]; the response to any request other than
    the OPTIONS preflight also carries [Content-Type: application/json]; the
    response to the preflight has an empty body and the three headers
    written out below, and no other. *)
Theorem responses_carry_the_headers (req : Request Num)
        (tr : list (Event Num)) :
  exists resp tr',
    serve JSON_parse fetch env_OPENAI_API_KEY req tr = (Return resp, tr')
    /\ In ("Access-Control-Allow-Origin", "*") (resp_headers resp)
    /\ (req_method req <> "OPTIONS" ->
        In ("Content-Type", "application/json") (resp_headers resp))
    /\ (req_method req = "OPTIONS" ->
        resp_body resp = None
        /\ resp_headers resp
           = [("Access-Control-Allow-Origin", "*");
              ("Access-Control-Allow-Methods", "POST, GET, OPTIONS");
              ("Access-Control-Allow-Headers", "Content-Type")]).
Proof.
  destruct (String.eqb_spec (req_method req) "OPTIONS") as [Hm|Hm].
  - unfold serve. rewrite Hm. simpl.
    eexists _, _. split; [reflexivity|]. simpl. split; [now left|].
    split; [intro Hn; now contradiction Hn | intros _; now split].
  - destruct (answers_json_serve req tr Hm) as (resp & tr' & E & Hh).
    exists resp, tr'. rewrite Hh. simpl. intuition.
Qed.

(** *** The client *)

(** C6, amended. When the outbound call is answered: with a status that is
    not a success, [analyzeFoodImage] throws an error whose message ends with
    the status code; with a success and a body, other than [null], in which
    [choices[0].message.content] is absent or otherwise falsy, it throws
    [No content in OpenAI response]; with a success and a content that is a
    string that is not empty, it returns what [JSON.parse] returns, and throws
    what it throws, for the content with every occurrence of a fence marker
    removed and trimmed. *)
Theorem analyzeFoodImage_outcomes (imageUrl : Value)
        (response : FetchResponse Num) :
  fetch (vision_request env_OPENAI_API_KEY imageUrl) = Return response ->
  (ok response = false ->
   analyze imageUrl
     = Throw (mkError ("OpenAI API error: "
                       ++ number_to_string (status response)))
   /\ includes (number_to_string (status response))
        ("OpenAI API error: " ++ number_to_string (status response)))
  /\ (forall data,
        ok response = true ->
        json response = Return data ->
        is_nullish data = false ->
        (to_boolean (content_of data) = false ->
         analyze imageUrl = Throw (mkError "No content in OpenAI response"))
        /\ (forall s,
              content_of data = JStr s -> s <> "" ->
              analyze imageUrl = JSON_parse (trim (replace_fences s)))).
Proof.
  intro Hfetch. unfold analyzeFoodImage. rewrite Hfetch. unfold obind.
  split.
  - intros Hok. split; [now rewrite Hok | apply includes_suffix].
  - intros data -> -> Hdata. simpl negb. cbv iota.
    rewrite get_of_value by assumption. fold (content_of data).
    split.
    + now intros ->.
    + intros s -> Hs. destruct s; [contradiction|]. reflexivity.
Qed.

End Properties.

(** * The properties at work, and the inputs on which the specification and
      the program part *)

(** [initialize] with params of any kind. *)
Lemma initialize_is_static_witness :
  let req := POST initialize_request in
  (req_method req <> "OPTIONS"
   /\ req_json req = Return initialize_request
   /\ prop initialize_request "jsonrpc" = JStr "2.0"
   /\ prop initialize_request "method" = JStr "initialize")
  /\ run apple_parser fetch_offline None req =
       (Return
          (mkResponse 200 json_headers
             (JSON_stringify
                (JObj [("jsonrpc", JStr "2.0");
                       ("id", JNum 1%Z);
                       ("result",
                        JObj [("protocolVersion", JStr "2024-11-05");
                              ("capabilities", JObj [("tools", JObj [])]);
                              ("serverInfo",
                               JObj [("name", JStr "food-analyzer-mcp");
                                     ("version", JStr "1.0.0")])])]))),
        []).
Proof.
  intro req.
  assert (Hm : req_method req <> "OPTIONS") by discriminate.
  assert (He : req_json req = Return initialize_request) by reflexivity.
  assert (Hrpc : prop initialize_request "jsonrpc" = JStr "2.0")
    by reflexivity.
  assert (Hmethod : prop initialize_request "method" = JStr "initialize")
    by reflexivity.
  split; [repeat split; assumption|].
  exact (proj1 (initialize_is_static apple_parser fetch_offline None req
                  Hm He Hrpc Hmethod)).
Defined.

(** The method [foo/bar]. *)
Lemma unknown_method_is_named_witness :
  let req := POST unknown_method_request in
  (req_method req <> "OPTIONS"
   /\ req_json req = Return unknown_method_request
   /\ prop unknown_method_request "jsonrpc" = JStr "2.0"
   /\ prop unknown_method_request "method" <> JStr "initialize"
   /\ prop unknown_method_request "method" <> JStr "tools/list"
   /\ prop unknown_method_request "method" <> JStr "tools/call"
   /\ to_string (prop unknown_method_request "method") = Return "foo/bar")
  /\ run apple_parser fetch_offline None req =
       (Return
          (mkResponse 200 json_headers
             (JSON_stringify
                (JObj [("jsonrpc", JStr "2.0");
                       ("id", JStr "a");
                       ("error",
                        JObj [("code", JNum (-32601)%Z);
                              ("message",
                               JStr "Method not found: foo/bar")])]))),
        [])
  /\ includes "foo/bar" "Method not found: foo/bar".
Proof.
  intro req.
  assert (Hm : req_method req <> "OPTIONS") by discriminate.
  assert (He : req_json req = Return unknown_method_request) by reflexivity.
  assert (Hrpc : prop unknown_method_request "jsonrpc" = JStr "2.0")
    by reflexivity.
  assert (H1 : prop unknown_method_request "method" <> JStr "initialize")
    by discriminate.
  assert (H2 : prop unknown_method_request "method" <> JStr "tools/list")
    by discriminate.
  assert (H3 : prop unknown_method_request "method" <> JStr "tools/call")
    by discriminate.
  assert (H4 : to_string (prop unknown_method_request "method")
               = Return "foo/bar") by reflexivity.
  split; [repeat split; assumption|].
  destruct (unknown_method_is_named apple_parser fetch_offline None req
              Hm He Hrpc H1 H2 H3 H4) as (Hrun & _ & (msg & Hmsg & Hinc) & _).
  split; [exact Hrun|].
  injection Hmsg as <-. exact Hinc.
Defined.


(** A call of the tool with empty arguments. *)
Lemma missing_imageUrl_is_invalid_params_witness :
  let body := tools_call (JNum 2%Z) (JStr "analyze_food_image") (JObj []) in
  let req := POST body in
  (req_method req <> "OPTIONS"
   /\ req_json req = Return body
   /\ prop body "jsonrpc" = JStr "2.0"
   /\ prop body "method" = JStr "tools/call"
   /\ opt_get (prop body "params") "name" = JStr "analyze_food_image"
   /\ opt_get (opt_get (prop body "params") "arguments") "imageUrl"
      = JUndefined)
  /\ run apple_parser (fetch_replies apple_reply) None req =
       (Return
          (mkResponse 200 json_headers
             (JSON_stringify
                (JObj [("jsonrpc", JStr "2.0");
                       ("id", JNum 2%Z);
                       ("error",
                        JObj [("code", JNum (-32602)%Z);
                              ("message",
                               JStr
                                 "Invalid params: imageUrl is required")])]))),
        []).
Proof.
  intros body req.
  assert (Hm : req_method req <> "OPTIONS") by discriminate.
  assert (He : req_json req = Return body) by reflexivity.
  assert (Hrpc : prop body "jsonrpc" = JStr "2.0") by reflexivity.
  assert (Hmethod : prop body "method" = JStr "tools/call") by reflexivity.
  assert (Hname : opt_get (prop body "params") "name"
                  = JStr "analyze_food_image") by reflexivity.
  assert (Hurl : opt_get (opt_get (prop body "params") "arguments")
                   "imageUrl" = JUndefined) by reflexivity.
  split; [repeat split; assumption|].
  exact (proj1 (missing_imageUrl_is_invalid_params apple_parser
                  (fetch_replies apple_reply) None req Hm He Hrpc Hmethod
                  Hname Hurl)).
Defined.

(** A call of the tool while the network is down. *)
Lemma tool_failure_is_a_result_witness :
  let body :=
    tools_call (JNum 3%Z) (JStr "analyze_food_image")
      (JObj [("imageUrl", photo)]) in
  let req := POST body in
  let error := mkError "error sending request" in
  (req_method req <> "OPTIONS"
   /\ req_json req = Return body
   /\ prop body "jsonrpc" = JStr "2.0"
   /\ prop body "method" = JStr "tools/call"
   /\ opt_get (prop body "params") "name" = JStr "analyze_food_image"
   /\ photo <> JUndefined
   /\ In (Invoked photo (Throw error))
        (snd (run apple_parser fetch_offline None req)))
  /\ fst (run apple_parser fetch_offline None req) =
       Return
         (mkResponse 200 json_headers
            (JSON_stringify
               (JObj [("jsonrpc", JStr "2.0");
                      ("id", JNum 3%Z);
                      ("result",
                       JObj [("content",
                              JArr [JObj [("type", JStr "text");
                                          ("text",
                                           JStr
                                             "Error analyzing food: error sending request")]]);
                             ("isError", JBool true)])]))).
Proof.
  intros body req error.
  assert (Hm : req_method req <> "OPTIONS") by discriminate.
  assert (He : req_json req = Return body) by reflexivity.
  assert (Hrpc : prop body "jsonrpc" = JStr "2.0") by reflexivity.
  assert (Hmethod : prop body "method" = JStr "tools/call") by reflexivity.
  assert (Hname : opt_get (prop body "params") "name"
                  = JStr "analyze_food_image") by reflexivity.
  assert (Hurl : photo <> JUndefined) by discriminate.
  assert (Hcall : In (Invoked photo (Throw error))
                    (snd (run apple_parser fetch_offline None req)))
    by (left; reflexivity).
  split; [repeat split; assumption|].
  exact (proj1 (tool_failure_is_a_result apple_parser fetch_offline None
                  req error Hm He Hrpc Hmethod Hname Hurl Hcall)).
Defined.

(** A call of the tool answered by a model that fences its answer. *)
Lemma tool_success_carries_the_record_witness :
  let body :=
    tools_call (JNum 4%Z) (JStr "analyze_food_image")
      (JObj [("imageUrl", photo)]) in
  let req := POST body in
  (req_method req <> "OPTIONS"
   /\ req_json req = Return body
   /\ prop body "jsonrpc" = JStr "2.0"
   /\ prop body "method" = JStr "tools/call"
   /\ opt_get (prop body "params") "name" = JStr "analyze_food_image"
   /\ photo <> JUndefined
   /\ In (Invoked photo (Return apple))
        (snd (run apple_parser (fetch_replies apple_reply) None req)))
  /\ exists text,
       JSON_stringify_pretty apple = Some text
       /\ fst (run apple_parser (fetch_replies apple_reply) None req) =
            Return
              (mkResponse 200 json_headers
                 (JSON_stringify
                    (JObj [("jsonrpc", JStr "2.0");
                           ("id", JNum 4%Z);
                           ("result",
                            JObj [("content",
                                   JArr [JObj [("type", JStr "text");
                                               ("text", JStr text)]]);
                                  ("isError", JBool false)])]))).
Proof.
  intros body req.
  assert (Hm : req_method req <> "OPTIONS") by discriminate.
  assert (He : req_json req = Return body) by reflexivity.
  assert (Hrpc : prop body "jsonrpc" = JStr "2.0") by reflexivity.
  assert (Hmethod : prop body "method" = JStr "tools/call") by reflexivity.
  assert (Hname : opt_get (prop body "params") "name"
                  = JStr "analyze_food_image") by reflexivity.
  assert (Hurl : photo <> JUndefined) by discriminate.
  assert (Hcall : In (Invoked photo (Return apple))
                    (snd (run apple_parser (fetch_replies apple_reply) None
                            req)))
    by (left; reflexivity).
  split; [repeat split; assumption|].
  destruct (tool_success_carries_the_record apple_parser
              (fetch_replies apple_reply) None req _ Hm He Hrpc Hmethod
              Hname Hurl Hcall) as (text & Htext & Hrun & _).
  exists text. split; [exact Htext | exact Hrun].
Defined.

(** A legacy request with the address of a photo. *)
Lemma legacy_image_reaches_the_client_witness :
  let body := JObj [("image", photo)] in
  let req := POST body in
  (req_method req <> "OPTIONS"
   /\ req_json req = Return body
   /\ prop body "jsonrpc" <> JStr "2.0"
   /\ to_boolean (prop body "image") = true)
  /\ snd (run apple_parser (fetch_replies apple_reply) None req)
     = [Invoked photo (Return apple)]
  /\ fst (run apple_parser (fetch_replies apple_reply) None req)
     = Return (mkResponse 200 json_headers (JSON_stringify apple)).
Proof.
  intros body req.
  assert (Hm : req_method req <> "OPTIONS") by discriminate.
  assert (He : req_json req = Return body) by reflexivity.
  assert (Hrpc : prop body "jsonrpc" <> JStr "2.0") by discriminate.
  assert (Himage : to_boolean (prop body "image") = true) by reflexivity.
  split; [repeat split; assumption|].
  destruct (legacy_image_reaches_the_client apple_parser
              (fetch_replies apple_reply) None req Hm He Hrpc Himage)
    as (Hcall & Hrun).
  split; [exact Hcall | exact (Hrun apple eq_refl)].
Defined.

(** An envelope of an older version of the protocol. *)
Lemma version_check_is_behind_the_gate_witness :
  let req := POST old_version_request in
  (req_method req <> "OPTIONS"
   /\ req_json req = Return old_version_request
   /\ prop old_version_request "jsonrpc" <> JStr "2.0")
  /\ handleMCPRequest old_version_request
     = Return
         (JObj [("jsonrpc", JStr "2.0");
                ("id", JNum 1%Z);
                ("error",
                 JObj [("code", JNum (-32600)%Z);
                       ("message",
                        JStr "Invalid Request: jsonrpc must be 2.0")])])
  /\ run apple_parser fetch_offline None req =
       (Return
          (mkResponse 400 json_headers
             (JSON_stringify
                (JObj [("error", JStr "Invalid request format")]))),
        []).
Proof.
  intro req.
  assert (Hm : req_method req <> "OPTIONS") by discriminate.
  assert (He : req_json req = Return old_version_request) by reflexivity.
  assert (Hrpc : prop old_version_request "jsonrpc" <> JStr "2.0")
    by discriminate.
  split; [repeat split; assumption|].
  destruct (version_check_is_behind_the_gate apple_parser fetch_offline None
              req Hm He Hrpc) as (Hsync & _ & Hrun & _).
  split; [exact Hsync | exact (Hrun eq_refl)].
Defined.

(** A request that is not JSON: status 500, and both headers. *)
Lemma responses_carry_the_headers_witness :
  let req := mkRequest "POST" (Throw (mkError "Unexpected end of JSON input")) in
  exists resp tr',
    serve apple_parser fetch_offline None req [] = (Return resp, tr')
    /\ In ("Access-Control-Allow-Origin", "*") (resp_headers resp)
    /\ In ("Content-Type", "application/json") (resp_headers resp).
Proof.
  intro req.
  destruct (responses_carry_the_headers apple_parser fetch_offline None
              req []) as (resp & tr' & Hrun & Hcors & Htype & _).
  exists resp, tr'.
  split; [exact Hrun | split; [exact Hcors | apply Htype; discriminate]].
Defined.

(** The three outcomes of the client: a quota error, a reply without content,
    a fenced answer. *)
Lemma analyzeFoodImage_outcomes_witness :
  let busy : FetchResponse Z :=
    mkFetchResponse false 429%Z (Return (JObj [])) in
  let empty : FetchResponse Z :=
    mkFetchResponse true 200%Z (Return (JObj [("choices", JArr [])])) in
  analyzeFoodImage apple_parser (fetch_replies busy) None photo
    = Throw (mkError "OpenAI API error: 429")
  /\ includes "429" "OpenAI API error: 429"
  /\ analyzeFoodImage apple_parser (fetch_replies empty) None photo
     = Throw (mkError "No content in OpenAI response")
  /\ analyzeFoodImage apple_parser (fetch_replies apple_reply) None photo
     = Return apple.
Proof.
  intros busy empty.
  destruct (analyzeFoodImage_outcomes apple_parser (fetch_replies busy) None
              photo eq_refl) as (Hbusy & _).
  destruct (analyzeFoodImage_outcomes apple_parser (fetch_replies empty) None
              photo eq_refl) as (_ & Hempty).
  destruct (analyzeFoodImage_outcomes apple_parser (fetch_replies apple_reply)
              None photo eq_refl) as (_ & Hfenced).
  destruct (Hbusy eq_refl) as (Hthrown & Hincluded).
  destruct (Hempty _ eq_refl eq_refl eq_refl) as (Hnone & _).
  destruct (Hfenced _ eq_refl eq_refl eq_refl) as (_ & Hparsed).
  split; [exact Hthrown|].
  split; [exact Hincluded|].
  split; [exact (Hnone eq_refl)|].
  rewrite (Hparsed _ eq_refl) by discriminate. reflexivity.
Defined.

(** C1, as stated, fails: a body that has [jsonrpc], [id] and [method], with
    [jsonrpc] 1.0, is answered with status 400 and [Invalid request format],
    not with the envelope of code -32600. *)
Lemma old_version_gets_400 :
  prop old_version_request "jsonrpc" = JStr "1.0"
  /\ prop old_version_request "id" = JNum 1%Z
  /\ prop old_version_request "method" = JStr "initialize"
  /\ run apple_parser fetch_offline None (POST old_version_request) =
       (Return
          (mkResponse 400 json_headers
             (JSON_stringify
                (JObj [("error", JStr "Invalid request format")]))),
        [])
  /\ JSON_stringify (JObj [("error", JStr "Invalid request format")])
     <> JSON_stringify
          (error_envelope (JNum 1%Z) (-32600)
             "Invalid Request: jsonrpc must be 2.0").
Proof.
  repeat split; try reflexivity. discriminate.
Qed.

(** C9, as stated, fails: a body with [jsonrpc] 2.0 whose method is an object
    with a [toString] of its own, which is none of the three methods, cannot
    be printed in the message; the TypeError of the template literal is
    caught by the handler, which answers with status 500 and no envelope. *)
Lemma unprintable_method_gets_500 :
  prop unprintable_method_request "jsonrpc" = JStr "2.0"
  /\ prop unprintable_method_request "method" <> JStr "initialize"
  /\ prop unprintable_method_request "method" <> JStr "tools/list"
  /\ prop unprintable_method_request "method" <> JStr "tools/call"
  /\ handleMCPRequest unprintable_method_request
     = Throw (mkError "Cannot convert object to primitive value")
  /\ run apple_parser fetch_offline None (POST unprintable_method_request) =
       (Return
          (mkResponse 500 json_headers
             (JSON_stringify
                (JObj [("error", JStr "Internal server error");
                       ("message",
                        JStr "Cannot convert object to primitive value")]))),
        []).
Proof.
  repeat split; try reflexivity; discriminate.
Qed.

(** C7, as stated, fails: the response to the OPTIONS preflight has the three
    headers of [cors_headers], none of which is [Content-Type]. *)
Lemma preflight_has_no_content_type :
  run apple_parser fetch_offline None
    (mkRequest "OPTIONS" (Throw (mkError "Unexpected end of JSON input")))
  = (Return (mkResponse 200 cors_headers None), [])
  /\ ~ In "Content-Type" (map fst cors_headers).
Proof.
  split; [reflexivity|].
  simpl. intros [E|[E|[E|[]]]]; discriminate.
Qed.

(** C8, as stated, fails: a body that has an [image], the empty string, is
    answered with status 400, and the client is not called, although a call
    would have succeeded. *)
Lemma empty_image_gets_400 :
  let body : JSValue Z := JObj [("image", JStr "")] in
  prop body "jsonrpc" <> JStr "2.0"
  /\ prop body "image" = JStr ""
  /\ analyzeFoodImage apple_parser (fetch_replies apple_reply) None
       (JStr "") = Return apple
  /\ run apple_parser (fetch_replies apple_reply) None (POST body) =
       (Return
          (mkResponse 400 json_headers
             (JSON_stringify
                (JObj [("error", JStr "Invalid request format")]))),
        []).
Proof.
  repeat split; try reflexivity. discriminate.
Qed.

(** C6, as stated, fails in three places.  A reply without content makes the
    client throw [No content in OpenAI response], which is another message
    than [No content in response]; a reply whose body is [null] makes it
    throw the TypeError of the property access; and a fence marker inside the
    content is removed like one at its ends, so that a content that does not
    parse once its outer markers are stripped is parsed all the same
    ([parse_known] does on the two texts at hand what JSON.parse does). *)
Lemma client_departs_from_the_words :
  let reply (data : JSValue Z) : FetchResponse Z :=
    mkFetchResponse true 200%Z (Return data) in
  let parser := parse_known [("{}", JObj [])] in
  (analyzeFoodImage parser (fetch_replies (reply (JObj []))) None photo
   = Throw (mkError "No content in OpenAI response")
   /\ "No content in OpenAI response" <> "No content in response")
  /\ analyzeFoodImage parser (fetch_replies (reply JNull)) None photo
     = Throw (mkError "Cannot read properties of null (reading 'choices')")
  /\ (spec_strip_outer_fences "{```}" = "{```}"
      /\ parser (spec_strip_outer_fences "{```}")
         = Throw (mkError "Unexpected token")
      /\ analyzeFoodImage parser
           (fetch_replies (reply (completion (JStr "{```}")))) None photo
         = Return (JObj [])).
Proof.
  repeat split; try reflexivity. discriminate.
Qed.

(** * The rest of the program *)

(** ** The replace and the trim *)

Lemma strip_prefix_app (p s rest : string) :
  strip_prefix p s = Some rest <-> s = p ++ rest.
Proof.
  revert s. induction p as [|a p IH]; intro s; simpl.
  - split; [now intros [= ->] | now intros ->].
  - destruct s as [|b s]; [split; discriminate|].
    destruct (Ascii.eqb_spec a b) as [->|Hab].
    + rewrite IH. split; [now intros -> | now intros [= ->]].
    + split; [discriminate | intros [= E _]; now symmetry in E].
Qed.

Lemma includes_head (p s rest : string) :
  strip_prefix p s = Some rest -> includes p s.
Proof. intro E. apply strip_prefix_app in E. now exists "", rest. Qed.

Lemma includes_tail (p : string) (c : ascii) (s : string) :
  includes p s -> includes p (String c s).
Proof. intros (a & b & ->). now exists (String c a), b. Qed.

Lemma includes_inv (p : string) (c : ascii) (s : string) :
  includes p (String c s) ->
  (exists rest, strip_prefix p (String c s) = Some rest) \/ includes p s.
Proof.
  intros ([|a0 a] & b & E).
  - left. exists b. now apply strip_prefix_app.
  - right. simpl in E. injection E as _ ->. now exists a, b.
Qed.

Lemma fence_length_none (s : string) :
  fence_length s = 0 <-> strip_prefix "```" s = None.
Proof.
  unfold fence_length. split.
  - intro E. destruct (strip_prefix "```" s) as [rest|] eqn:E3; [|reflexivity].
    destruct (strip_prefix "```json" s); discriminate.
  - intro E3. rewrite E3.
    destruct (strip_prefix "```json" s) as [rest|] eqn:E7; [|reflexivity].
    apply strip_prefix_app in E7. subst s. simpl in E3. discriminate.
Qed.

Lemma replace_from_keeps (c : ascii) (s : string) :
  strip_prefix "```" (String c s) = None ->
  replace_from 0 (String c s) = String c (replace_from 0 s).
Proof.
  intro E. apply fence_length_none in E.
  change (replace_from 0 (String c s)) with
    (match fence_length (String c s) with
     | S k => replace_from k s
     | O => String c (replace_from 0 s)
     end).
  now rewrite E.
Qed.

Lemma strip_other (p : string) (a c : ascii) (s : string) :
  a <> c -> strip_prefix (String a p) (String c s) = None.
Proof. intro E. simpl. now destruct (Ascii.eqb_spec a c). Qed.

Lemma strip_same (p : string) (c : ascii) (s : string) :
  strip_prefix (String c p) (String c s) = strip_prefix p s.
Proof. simpl. now rewrite Ascii.eqb_refl. Qed.

Lemma kept_head_is_no_fence (c : ascii) (s : string) :
  strip_prefix "```" (String c s) = None ->
  strip_prefix "```" (String c (replace_from 0 s)) = None.
Proof.
  intro E.
  destruct (Ascii.eqb_spec "`"%char c) as [<-|Hc]; [|now apply strip_other].
  rewrite strip_same in E |- *.
  destruct s as [|c2 s2]; [reflexivity|].
  destruct (Ascii.eqb_spec "`"%char c2) as [<-|Hc2].
  - rewrite strip_same in E.
    rewrite replace_from_keeps.
    2:{ rewrite strip_same. destruct s2 as [|c3 s3]; [reflexivity|].
        destruct (Ascii.eqb_spec "`"%char c3) as [<-|Hc3];
          [now rewrite strip_same in E | now apply strip_other]. }
    rewrite strip_same.
    destruct s2 as [|c3 s3]; [reflexivity|].
    destruct (Ascii.eqb_spec "`"%char c3) as [<-|Hc3];
      [now rewrite strip_same in E|].
    rewrite replace_from_keeps by now apply strip_other.
    now apply strip_other.
  - rewrite replace_from_keeps by now apply strip_other.
    now apply strip_other.
Qed.

(** Whatever is skipped first, what the scan leaves has no three backquotes
    in a row. *)
Lemma replace_from_has_no_fence (s : string) :
  forall skip, ~ includes "```" (replace_from skip s).
Proof.
  induction s as [|c s IH]; intros skip Hin.
  - simpl in Hin. destruct Hin as ([|? ?] & b & E); discriminate.
  - destruct skip as [|k]; [|exact (IH k Hin)].
    destruct (fence_length (String c s)) as [|k] eqn:E.
    + apply fence_length_none in E.
      rewrite replace_from_keeps in Hin by assumption.
      apply includes_inv in Hin. destruct Hin as [(rest & Hhead)|Hin].
      * now rewrite kept_head_is_no_fence in Hhead.
      * exact (IH 0 Hin).
    + change (replace_from 0 (String c s)) with
        (match fence_length (String c s) with
         | S k => replace_from k s
         | O => String c (replace_from 0 s)
         end) in Hin.
      rewrite E in Hin. exact (IH k Hin).
Qed.

Lemma unfenced_is_kept (s : string) :
  ~ includes "```" s -> replace_fences s = s.
Proof.
  unfold replace_fences. induction s as [|c s IH]; intro Hs; [reflexivity|].
  rewrite replace_from_keeps.
  - f_equal. apply IH. intro Hin. apply Hs. now apply includes_tail.
  - destruct (strip_prefix "```" (String c s)) as [rest|] eqn:E;
      [|reflexivity].
    contradiction Hs. now apply includes_head with (rest := rest).
Qed.

(** The scan copies a prefix without marker that a character other than a
    backquote follows. *)
Lemma replace_from_prefix (p t : string) :
  ~ includes "```" p ->
  strip_prefix "`" t = None ->
  replace_from 0 (p ++ t) = p ++ replace_from 0 t.
Proof.
  intros Hp Ht. induction p as [|c p IH]; [reflexivity|].
  simpl append. rewrite replace_from_keeps.
  - f_equal. apply IH. intro Hin. apply Hp. now apply includes_tail.
  - destruct (strip_prefix "```" (String c (p ++ t))) as [rest|] eqn:E;
      [|reflexivity].
    exfalso.
    destruct (Ascii.eqb_spec "`"%char c) as [<-|Hc];
      [|now rewrite strip_other in E].
    rewrite strip_same in E.
    destruct p as [|c2 p2].
    { simpl append in E. destruct t as [|t1 t']; [discriminate|].
      destruct (Ascii.eqb_spec "`"%char t1) as [<-|Ht1];
        [now rewrite strip_same in Ht | now rewrite strip_other in E]. }
    simpl append in E.
    destruct (Ascii.eqb_spec "`"%char c2) as [<-|Hc2];
      [|now rewrite strip_other in E].
    rewrite strip_same in E.
    destruct p2 as [|c3 p3].
    { simpl append in E. destruct t as [|t1 t']; [discriminate|].
      destruct (Ascii.eqb_spec "`"%char t1) as [<-|Ht1];
        [now rewrite strip_same in Ht | now rewrite strip_other in E]. }
    simpl append in E.
    destruct (Ascii.eqb_spec "`"%char c3) as [<-|Hc3];
      [|now rewrite strip_other in E].
    apply Hp. now exists "", p3.
Qed.

Lemma reverse_app (a b acc : string) :
  reverse (a ++ b) acc = reverse b (reverse a acc).
Proof.
  revert acc. induction a as [|c a IH]; intro acc; [reflexivity|].
  simpl. apply IH.
Qed.

Lemma reverse_reverse (s a b : string) :
  reverse (reverse s a) b = reverse a (s ++ b).
Proof.
  revert a b. induction s as [|c s IH]; intros a b; [reflexivity|].
  simpl. rewrite IH. reflexivity.
Qed.

Lemma includes_after (p : string) (a c : ascii) (s : string) :
  a <> c -> includes (String a p) (String c s) -> includes (String a p) s.
Proof.
  intros E Hin. apply includes_inv in Hin.
  destruct Hin as [(rest & Hhead)|Hin]; [|exact Hin].
  now rewrite strip_other in Hhead.
Qed.

Lemma trim_braces (q : string) :
  trim ("{" ++ q ++ "}") = "{" ++ q ++ "}"
  /\ trim ("{" ++ q ++ "}" ++ newline) = "{" ++ q ++ "}".
Proof.
  unfold trim, newline. split.
  - change (drop_leading white_space 0 ("{" ++ q ++ "}"))
      with ("{" ++ q ++ "}").
    change ("{" ++ q ++ "}") with (String "{" (q ++ "}")) at 1.
    cbn [reverse]. rewrite reverse_app. cbn [reverse].
    change (drop_leading (map (@rev nat) white_space) 0
              (String "}" (reverse q "{")))
      with (String "}" (reverse q "{")).
    cbn [reverse]. rewrite reverse_reverse. reflexivity.
  - change (drop_leading white_space 0 ("{" ++ q ++ "}" ++ String "010" ""))
      with ("{" ++ q ++ "}" ++ String "010" "").
    change ("{" ++ q ++ "}" ++ String "010" "")
      with (String "{" (q ++ String "}" (String "010" ""))).
    cbn [reverse]. rewrite reverse_app. cbn [reverse].
    change (drop_leading (map (@rev nat) white_space) 0
              (String "010" (String "}" (reverse q "{"))))
      with (String "}" (reverse q "{")).
    cbn [reverse]. rewrite reverse_reverse. reflexivity.
Qed.

(** An object text is cleaned to itself, fenced or bare. *)
Lemma brace_text_cleans (q : string) :
  ~ includes "```" q ->
  trim (replace_fences (fenced q)) = bare q
  /\ trim (replace_fences (plainly_fenced q)) = bare q
  /\ trim (replace_fences (bare q)) = bare q.
Proof.
  intro Hq. unfold fenced, plainly_fenced, bare.
  assert (Hopen : ~ includes "```" ("{" ++ q)).
  { intro Hin. apply Hq. apply includes_after with (c := "{"%char);
      [discriminate | exact Hin]. }
  assert (Hbare : replace_from 0 ("{" ++ q ++ "}") = "{" ++ q ++ "}").
  { change ("{" ++ q ++ "}") with (("{" ++ q) ++ "}").
    now rewrite replace_from_prefix. }
  assert (Hfenced : replace_from 0 ("{" ++ q ++ "}" ++ newline ++ "```")
                    = "{" ++ q ++ "}" ++ newline).
  { change ("{" ++ q ++ "}" ++ newline ++ "```")
      with (("{" ++ q) ++ "}" ++ newline ++ "```").
    rewrite replace_from_prefix by (assumption || reflexivity).
    reflexivity. }
  split; [|split].
  - change (replace_fences
              ("```json" ++ newline ++ "{" ++ q ++ "}" ++ newline ++ "```"))
      with (replace_from 0 ("{" ++ q ++ "}" ++ newline ++ "```")).
    rewrite Hfenced. apply trim_braces.
  - change (replace_fences
              ("```" ++ newline ++ "{" ++ q ++ "}" ++ newline ++ "```"))
      with (replace_from 0 ("{" ++ q ++ "}" ++ newline ++ "```")).
    rewrite Hfenced. apply trim_braces.
  - unfold replace_fences. rewrite Hbare. apply trim_braces.
Qed.

(** X16. What the replace returns has no three backquotes in a row, whatever
    the content is. *)
Theorem replace_fences_leaves_no_fence (s : string) :
  ~ includes "```" (replace_fences s).
Proof.
  unfold replace_fences. intro Hin.
  exact (replace_from_has_no_fence s 0 Hin).
Qed.

(** X17. A content without three backquotes in a row is left as it is by the
    replace. *)
Theorem replace_fences_unfenced (s : string) :
  ~ includes "```" s -> replace_fences s = s.
Proof.
  intro Hs. destruct s as [|c s]; [reflexivity|].
  now apply unfenced_is_kept.
Qed.

(** X18. Replacing twice is replacing once. *)
Theorem replace_fences_idempotent (s : string) :
  replace_fences (replace_fences s) = replace_fences s.
Proof.
  apply unfenced_is_kept, replace_from_has_no_fence.
Qed.

(** ** The dispatcher and the handler *)

Section Coverage.

Context {Num : Type} `{JSNumber Num}.

Local Abbreviation Value := (JSValue Num).

Variable JSON_parse : string -> Outcome Value.
Variable fetch : FetchRequest -> Outcome (FetchResponse Num).
Variable env_OPENAI_API_KEY : option string.

Local Abbreviation analyze :=
  (analyzeFoodImage JSON_parse fetch env_OPENAI_API_KEY).
Local Abbreviation handle := (run JSON_parse fetch env_OPENAI_API_KEY).
Local Abbreviation serve' := (serve JSON_parse fetch env_OPENAI_API_KEY).

Lemma handleMCPRequest_tools_list (props : list (string * Value)) :
  prop (JObj props) "jsonrpc" = JStr "2.0" ->
  prop (JObj props) "method" = JStr "tools/list" ->
  handleMCPRequest (JObj props) =
    Return (result_envelope (prop (JObj props) "id") tools_list_result).
Proof.
  intros E1 E2.
  unfold handleMCPRequest. rewrite !destructure_of_object.
  unfold obind. now rewrite E1, E2.
Qed.

Lemma result_is_envelope (id result : Value) :
  result <> JUndefined -> is_envelope id (result_envelope id result).
Proof.
  intro E. unfold is_envelope, result_envelope. simpl.
  repeat split; try reflexivity. left. now split.
Qed.

Lemma error_is_envelope (id : Value) (code : Z) (msg : string) :
  In code [-32600; -32601; -32602]%Z ->
  is_envelope id (error_envelope id code msg).
Proof.
  intro Hcode. unfold is_envelope, error_envelope. simpl.
  repeat split; try reflexivity. right. split; [reflexivity|].
  now exists code, msg.
Qed.

(** What the dispatcher does with a request: an envelope, or the error of a
    method that cannot be printed. *)
Lemma handleMCPRequest_outcomes (request : Value) :
  is_nullish request = false ->
  (exists envelope,
     handleMCPRequest request = Return envelope
     /\ is_envelope (prop request "id") envelope)
  \/ (exists e,
        handleMCPRequest request = Throw e
        /\ to_string (prop request "method") = Throw e
        /\ prop request "jsonrpc" = JStr "2.0"
        /\ prop request "method" <> JStr "initialize"
        /\ prop request "method" <> JStr "tools/list"
        /\ prop request "method" <> JStr "tools/call").
Proof.
  intro Hreq. unfold handleMCPRequest.
  rewrite !destructure_of_value by assumption. unfold obind.
  destruct (is_string (prop request "jsonrpc") "2.0") eqn:Hrpc;
    simpl negb; cbv iota.
  2:{ left. eexists; split; [reflexivity|].
      apply error_is_envelope. now left. }
  destruct (is_string (prop request "method") "initialize") eqn:H1;
    [left; eexists; split; [reflexivity|]; now apply result_is_envelope|].
  destruct (is_string (prop request "method") "tools/list") eqn:H2;
    [left; eexists; split; [reflexivity|]; now apply result_is_envelope|].
  destruct (is_string (prop request "method") "tools/call") eqn:H3;
    [left; eexists; split; [reflexivity|]; now apply result_is_envelope|].
  destruct (to_string (prop request "method")) as [printed|e].
  - left. eexists; split; [reflexivity|].
    apply error_is_envelope. right. now left.
  - right. exists e. apply is_string_true in Hrpc.
    apply is_string_false in H1, H2, H3. repeat split; assumption.
Qed.

(** The statements for the other methods make no call, and turn what the
    dispatcher throws into the response of status 500. *)
Lemma other_methods_are_quiet (request : Value) (tr : list (Event Num)) :
  snd (try_catch (other_methods request) server_error tr) = tr.
Proof.
  unfold other_methods, try_catch, mbind, lift, mret, server_error.
  now destruct (handleMCPRequest request).
Qed.

Lemma other_methods_throw (request : Value) (e : Error)
      (tr : list (Event Num)) :
  handleMCPRequest request = Throw e ->
  try_catch (other_methods request) server_error tr =
    (Return (mkResponse 500 json_headers (internal_error e)), tr).
Proof.
  intro E. unfold other_methods, try_catch, mbind, lift, mret, server_error.
  now rewrite E.
Qed.

Lemma serve_nullish (req : Request Num) (tr : list (Event Num))
      (body : Value) :
  req_method req <> "OPTIONS" ->
  req_json req = Return body ->
  is_nullish body = true ->
  serve' req tr =
    server_error
      (mkError ("Cannot read properties of "
                  ++ match body with
                     | JNull => "null"
                     | _ => "undefined"
                     end
                  ++ " (reading 'jsonrpc')")) tr.
Proof.
  intros Hm E Hbody. unfold serve.
  rewrite (proj2 (String.eqb_neq _ _) Hm).
  unfold try_catch, mbind, lift. rewrite E.
  destruct body; try discriminate; reflexivity.
Qed.

(** The five ways through the handler. *)
Lemma serve_paths (req : Request Num) (tr : list (Event Num)) :
  (req_method req = "OPTIONS"
   /\ serve' req tr = (Return (mkResponse 200 cors_headers None), tr))
  \/ (req_method req <> "OPTIONS"
      /\ exists e,
           (req_json req = Throw e
            \/ exists body,
                 req_json req = Return body /\ is_nullish body = true)
           /\ serve' req tr = server_error e tr)
  \/ (req_method req <> "OPTIONS"
      /\ exists props,
           req_json req = Return (JObj props)
           /\ prop (JObj props) "jsonrpc" = JStr "2.0"
           /\ (prop (JObj props) "method" <> JStr "tools/call"
               \/ opt_get (prop (JObj props) "params") "name"
                  <> JStr "analyze_food_image")
           /\ serve' req tr
              = try_catch (other_methods (JObj props)) server_error tr)
  \/ (req_method req <> "OPTIONS"
      /\ exists props,
           req_json req = Return (JObj props)
           /\ prop (JObj props) "jsonrpc" = JStr "2.0"
           /\ prop (JObj props) "method" = JStr "tools/call"
           /\ opt_get (prop (JObj props) "params") "name"
              = JStr "analyze_food_image"
           /\ serve' req tr
              = try_catch
                  (try_catch
                     (call_tool JSON_parse fetch env_OPENAI_API_KEY
                        (JObj props)
                        (opt_get (prop (JObj props) "params") "arguments"))
                     (tool_failed (JObj props)))
                  server_error tr)
  \/ (req_method req <> "OPTIONS"
      /\ exists body,
           req_json req = Return body
           /\ is_nullish body = false
           /\ prop body "jsonrpc" <> JStr "2.0"
           /\ serve' req tr
              = try_catch (legacy JSON_parse fetch env_OPENAI_API_KEY body)
                  server_error tr).
Proof.
  destruct (String.eqb_spec (req_method req) "OPTIONS") as [Hm|Hm].
  { left. split; [exact Hm|]. unfold serve. now rewrite Hm. }
  right.
  destruct (req_json req) as [body|e] eqn:E.
  2:{ left. split; [exact Hm|]. exists e. split; [now left|].
      now apply serve_unreadable. }
  destruct (is_nullish body) eqn:Hbody.
  { left. split; [exact Hm|]. eexists. split; [right; now exists body|].
    apply serve_nullish with (body := body); assumption. }
  right.
  destruct (is_string (prop body "jsonrpc") "2.0") eqn:Hrpc.
  2:{ right. right. split; [exact Hm|]. exists body.
      apply is_string_false in Hrpc. repeat split; try assumption.
      now apply serve_legacy. }
  apply is_string_true in Hrpc.
  destruct (envelope_is_object body Hrpc) as [props ->].
  destruct (is_string (prop (JObj props) "method") "tools/call") eqn:Hmethod.
  2:{ left. split; [exact Hm|]. exists props.
      apply is_string_false in Hmethod.
      repeat split; try assumption; [now left|].
      now apply serve_other_method. }
  apply is_string_true in Hmethod.
  destruct (is_string (opt_get (prop (JObj props) "params") "name")
              "analyze_food_image") eqn:Hname.
  - right. left. split; [exact Hm|]. exists props.
    apply is_string_true in Hname. repeat split; try assumption.
    now apply serve_tool.
  - left. split; [exact Hm|]. exists props.
    apply is_string_false in Hname.
    repeat split; try assumption; [now right|].
    now apply serve_other_tool.
Qed.

(** *** The protocol *)

(** X1. A request, not a preflight, with [jsonrpc] 2.0 and method
    [tools/list] is answered with status 200 and the envelope written out
    below, whose [result] has a [tools] of one element, named
    [analyze_food_image], whose input schema requires [imageUrl], a string;
    the client is not called. *)
Theorem tools_list_names_the_tool (req : Request Num) (body : Value) :
  req_method req <> "OPTIONS" ->
  req_json req = Return body ->
  prop body "jsonrpc" = JStr "2.0" ->
  prop body "method" = JStr "tools/list" ->
  exists tool : Value,
    let envelope : Value :=
      JObj [("jsonrpc", JStr "2.0");
            ("id", prop body "id");
            ("result", JObj [("tools", JArr [tool])])] in
    handle req =
      (Return (mkResponse 200 json_headers (JSON_stringify envelope)), [])
    /\ prop (prop envelope "result") "tools" = JArr [tool]
    /\ prop envelope "error" = JUndefined
    /\ prop tool "name" = JStr "analyze_food_image"
    /\ prop (prop tool "inputSchema") "required" = JArr [JStr "imageUrl"]
    /\ prop (prop (prop (prop tool "inputSchema") "properties")
               "imageUrl") "type" = JStr "string".
Proof.
  intros Hm E Hrpc Hmethod.
  destruct (envelope_is_object body Hrpc) as [props ->].
  eexists. intro envelope. split.
  - unfold run. rewrite serve_other_method with (props := props);
      [|assumption|assumption|assumption|rewrite Hmethod; discriminate].
    apply other_methods_run. subst envelope.
    rewrite handleMCPRequest_tools_list by assumption. reflexivity.
  - repeat split; reflexivity.
Qed.

(** X2. On a request other than [null] and [undefined], [handleMCPRequest]
    returns an envelope with the version 2.0, the [id] of the request, and
    one of [result] and [error], the code of an error being -32600 or
    -32601.  It throws in one case only: the version is 2.0, the method is
    none of the three, and printing it in the message throws; the error is
    that one. *)
Theorem handleMCPRequest_answers_an_envelope (request : Value) :
  is_nullish request = false ->
  (exists envelope,
     handleMCPRequest request = Return envelope
     /\ is_envelope (prop request "id") envelope
     /\ (prop envelope "error" = JUndefined
         \/ exists msg,
              prop envelope "error"
                = JObj [("code", JNum (of_Z (-32600))); ("message", JStr msg)]
              \/ prop envelope "error"
                 = JObj [("code", JNum (of_Z (-32601)));
                         ("message", JStr msg)]))
  \/ (exists e,
        handleMCPRequest request = Throw e
        /\ to_string (prop request "method") = Throw e
        /\ prop request "jsonrpc" = JStr "2.0"
        /\ prop request "method" <> JStr "initialize"
        /\ prop request "method" <> JStr "tools/list"
        /\ prop request "method" <> JStr "tools/call").
Proof.
  intro Hreq.
  destruct (handleMCPRequest_outcomes request Hreq)
    as [(envelope & Hsync & Hshape)|Hthrow]; [left | now right].
  exists envelope. split; [exact Hsync|]. split; [exact Hshape|].
  revert Hsync. unfold handleMCPRequest.
  rewrite !destructure_of_value by assumption. unfold obind.
  destruct (is_string (prop request "jsonrpc") "2.0"); simpl negb; cbv iota.
  2:{ intros [= <-]. right. eexists. left. reflexivity. }
  destruct (is_string (prop request "method") "initialize");
    [intros [= <-]; now left|].
  destruct (is_string (prop request "method") "tools/list");
    [intros [= <-]; now left|].
  destruct (is_string (prop request "method") "tools/call");
    [intros [= <-]; now left|].
  destruct (to_string (prop request "method")); [|discriminate].
  intros [= <-]. right. eexists. right. reflexivity.
Qed.

(** X3. A request, not a preflight, whose body has [jsonrpc] 2.0 is
    answered with status 200 and an envelope with the version, the [id] of
    the request, and one of [result] and [error], whatever else it holds and
    whatever the client does.  There is one exception: a method that is none
    of the three and that cannot be printed in the message of the error
    -32601 is answered with status 500 and the message of the TypeError,
    without a call of the client. *)
Theorem protocol_requests_get_an_envelope (req : Request Num)
        (body : Value) :
  req_method req <> "OPTIONS" ->
  req_json req = Return body ->
  prop body "jsonrpc" = JStr "2.0" ->
  (exists envelope,
     fst (handle req)
       = Return (mkResponse 200 json_headers (JSON_stringify envelope))
     /\ is_envelope (prop body "id") envelope)
  \/ (exists e,
        to_string (prop body "method") = Throw e
        /\ prop body "method" <> JStr "initialize"
        /\ prop body "method" <> JStr "tools/list"
        /\ prop body "method" <> JStr "tools/call"
        /\ handle req =
             (Return
                (mkResponse 500 json_headers
                   (JSON_stringify
                      (JObj [("error", JStr "Internal server error");
                             ("message", JStr (message e))]))),
              [])).
Proof.
  intros Hm E Hrpc.
  destruct (envelope_is_object body Hrpc) as [props ->].
  assert (Hother :
            serve' req [] = try_catch (other_methods (JObj props))
                              server_error [] ->
            (exists envelope,
               fst (handle req)
                 = Return
                     (mkResponse 200 json_headers (JSON_stringify envelope))
               /\ is_envelope (prop (JObj props) "id") envelope)
            \/ (exists e,
                  to_string (prop (JObj props) "method") = Throw e
                  /\ prop (JObj props) "method" <> JStr "initialize"
                  /\ prop (JObj props) "method" <> JStr "tools/list"
                  /\ prop (JObj props) "method" <> JStr "tools/call"
                  /\ handle req =
                       (Return
                          (mkResponse 500 json_headers
                             (JSON_stringify
                                (JObj [("error",
                                        JStr "Internal server error");
                                       ("message", JStr (message e))]))),
                        []))).
  { intro Hserve. unfold run. rewrite Hserve.
    destruct (handleMCPRequest_outcomes (JObj props) eq_refl)
      as [(envelope & Hsync & Hshape)
         |(e & Hsync & Hprint & _ & H1 & H2 & H3)].
    - left. exists envelope. split; [|exact Hshape].
      now rewrite other_methods_run with (envelope := envelope).
    - right. exists e. repeat split; try assumption.
      now apply other_methods_throw. }
  destruct (is_string (prop (JObj props) "method") "tools/call") eqn:Hmethod.
  2:{ apply is_string_false in Hmethod. apply Hother.
      now apply serve_other_method. }
  apply is_string_true in Hmethod.
  destruct (is_string (opt_get (prop (JObj props) "params") "name")
              "analyze_food_image") eqn:Hname.
  - apply is_string_true in Hname. left.
    rewrite (tool_call_answer JSON_parse fetch env_OPENAI_API_KEY req
               Hm E Hrpc Hmethod Hname).
    destruct (to_boolean _).
    + eexists. split; [reflexivity|]. apply result_is_envelope.
      now destruct (analyze _).
    + eexists. split; [reflexivity|]. apply error_is_envelope.
      right. right. now left.
  - apply is_string_false in Hname. apply Hother.
    now apply serve_other_tool.
Qed.

(** X19. A request, not a preflight, with [jsonrpc] 2.0 whose method is none
    of the three and cannot be printed (an object with a [toString] of its
    own, or an array that holds one) gets no envelope: the TypeError of the
    template literal reaches the outer [catch], and the response has status
    500 and [{error: 'Internal server error', message}] with the message of
    the TypeError; the client is not called. *)
Theorem unprintable_method_is_500 (req : Request Num) (body : Value)
        (e : Error) :
  req_method req <> "OPTIONS" ->
  req_json req = Return body ->
  prop body "jsonrpc" = JStr "2.0" ->
  prop body "method" <> JStr "initialize" ->
  prop body "method" <> JStr "tools/list" ->
  prop body "method" <> JStr "tools/call" ->
  to_string (prop body "method") = Throw e ->
  handle req = (Return (mkResponse 500 json_headers (internal_error e)), []).
Proof.
  intros Hm E Hrpc H1 H2 H3 Hprint.
  destruct (envelope_is_object body Hrpc) as [props ->].
  unfold run. rewrite serve_other_method with (props := props)
    by assumption.
  apply other_methods_throw.
  apply is_string_false in H1, H2, H3.
  unfold handleMCPRequest. rewrite !destructure_of_object.
  unfold obind. now rewrite Hrpc, H1, H2, H3, Hprint.
Qed.

(** *** The call of the tool *)

(** X4. A call of [analyze_food_image] whose [imageUrl] is there but falsy
    (the empty string, [0], [false] or [null]) is answered like one without
    it: status 200 and the envelope written out below, whose [error] has the
    code -32602 and the message [Invalid params: imageUrl is required], and
    no call of the client. *)
Theorem falsy_imageUrl_is_invalid_params (req : Request Num)
        (body : Value) :
  req_method req <> "OPTIONS" ->
  req_json req = Return body ->
  prop body "jsonrpc" = JStr "2.0" ->
  prop body "method" = JStr "tools/call" ->
  opt_get (prop body "params") "name" = JStr "analyze_food_image" ->
  to_boolean (opt_get (opt_get (prop body "params") "arguments") "imageUrl")
    = false ->
  let envelope : Value :=
    JObj [("jsonrpc", JStr "2.0");
          ("id", prop body "id");
          ("error",
           JObj [("code", JNum (of_Z (-32602)));
                 ("message",
                  JStr "Invalid params: imageUrl is required")])] in
  handle req =
    (Return (mkResponse 200 json_headers (JSON_stringify envelope)), [])
  /\ prop (prop envelope "error") "code" = JNum (of_Z (-32602))
  /\ prop (prop envelope "error") "message"
     = JStr "Invalid params: imageUrl is required"
  /\ prop envelope "result" = JUndefined.
Proof.
  intros Hm E Hrpc Hmethod Hname Hurl envelope.
  split; [|repeat split; reflexivity].
  rewrite (tool_call_answer JSON_parse fetch env_OPENAI_API_KEY req
             Hm E Hrpc Hmethod Hname).
  now rewrite Hurl.
Qed.

(** X5. A call of [analyze_food_image] whose [imageUrl] is truthy makes one
    call of the client, with that value as it is: a string or not. *)
Theorem truthy_imageUrl_reaches_the_client (req : Request Num)
        (body : Value) :
  req_method req <> "OPTIONS" ->
  req_json req = Return body ->
  prop body "jsonrpc" = JStr "2.0" ->
  prop body "method" = JStr "tools/call" ->
  opt_get (prop body "params") "name" = JStr "analyze_food_image" ->
  let imageUrl :=
    opt_get (opt_get (prop body "params") "arguments") "imageUrl" in
  to_boolean imageUrl = true ->
  snd (handle req) = [Invoked imageUrl (analyze imageUrl)].
Proof.
  intros Hm E Hrpc Hmethod Hname imageUrl Hurl.
  rewrite (tool_call_answer JSON_parse fetch env_OPENAI_API_KEY req
             Hm E Hrpc Hmethod Hname).
  fold imageUrl. now rewrite Hurl.
Qed.

(** *** Requests outside the protocol *)

(** X6. A request, not a preflight, whose body cannot be read as JSON is
    answered with status 500 and [{error: 'Internal server error', message}],
    the message being the one of the error thrown; the client is not
    called. *)
Theorem unreadable_body_is_500 (req : Request Num) (e : Error) :
  req_method req <> "OPTIONS" ->
  req_json req = Throw e ->
  handle req = (Return (mkResponse 500 json_headers (internal_error e)), []).
Proof.
  intros Hm E. unfold run. now rewrite serve_unreadable with (e := e).
Qed.

(** X7. The body [null] is answered with status 500 too: reading [jsonrpc]
    of it throws, and the message of the TypeError is sent back. *)
Theorem null_body_is_500 (req : Request Num) :
  req_method req <> "OPTIONS" ->
  req_json req = Return JNull ->
  handle req =
    (Return
       (mkResponse 500 json_headers
          (internal_error
             (mkError "Cannot read properties of null (reading 'jsonrpc')"))),
     []).
Proof.
  intros Hm E. unfold run.
  now rewrite serve_nullish with (body := JNull).
Qed.

(** X8. A body that is JSON but neither an object nor [null] (an array, a
    string, a number, a boolean) is answered with status 400 and
    [{error: 'Invalid request format'}]; the client is not called. *)
Theorem non_object_body_is_400 (req : Request Num) (body : Value) :
  req_method req <> "OPTIONS" ->
  req_json req = Return body ->
  is_nullish body = false ->
  (forall props, body <> JObj props) ->
  handle req = (Return (mkResponse 400 json_headers invalid_format), []).
Proof.
  intros Hm E Hbody Hshape. unfold run.
  assert (Hprop : forall key, prop body key = JUndefined).
  { intro key. destruct body; try reflexivity. now contradiction (Hshape props). }
  rewrite serve_legacy with (body := body);
    [|assumption|assumption|assumption|rewrite Hprop; discriminate].
  rewrite legacy_runs by assumption. now rewrite Hprop.
Qed.

(** X9. When the client throws on a legacy request, the response has status
    500 and carries the message of the error: the failure that a call of the
    tool reports in a result with status 200 is an internal error here. *)
Theorem legacy_failure_is_500 (req : Request Num) (body : Value)
        (e : Error) :
  req_method req <> "OPTIONS" ->
  req_json req = Return body ->
  prop body "jsonrpc" <> JStr "2.0" ->
  to_boolean (prop body "image") = true ->
  analyze (prop body "image") = Throw e ->
  handle req =
    (Return (mkResponse 500 json_headers (internal_error e)),
     [Invoked (prop body "image") (Throw e)]).
Proof.
  intros Hm E Hrpc Himage Hthrow.
  assert (Hbody : is_nullish body = false)
    by (destruct body; (discriminate || reflexivity)).
  unfold run. rewrite serve_legacy with (body := body) by assumption.
  rewrite legacy_runs by assumption. now rewrite Himage, Hthrow.
Qed.

(** X10. But for the preflight, the handler does not look at the HTTP method:
    two requests with the same body get the same response. *)
Theorem handler_ignores_the_method (req1 req2 : Request Num)
        (tr : list (Event Num)) :
  req_method req1 <> "OPTIONS" ->
  req_method req2 <> "OPTIONS" ->
  req_json req1 = req_json req2 ->
  serve' req1 tr = serve' req2 tr.
Proof.
  intros H1 H2 E. unfold serve.
  rewrite (proj2 (String.eqb_neq _ _) H1), (proj2 (String.eqb_neq _ _) H2).
  unfold try_catch, mbind, lift. now rewrite E.
Qed.

(** *** Calls and statuses *)

(** X11. While a request is handled the client is called once at most, and
    only for a truthy image: the [imageUrl] of a call of
    [analyze_food_image], or the [image] of a body outside the protocol.
    No other request reaches the client. *)
Theorem client_is_called_for_an_image_only (req : Request Num) :
  snd (handle req) = []
  \/ exists body v,
       req_method req <> "OPTIONS"
       /\ req_json req = Return body
       /\ to_boolean v = true
       /\ snd (handle req) = [Invoked v (analyze v)]
       /\ ((prop body "jsonrpc" = JStr "2.0"
            /\ prop body "method" = JStr "tools/call"
            /\ opt_get (prop body "params") "name"
               = JStr "analyze_food_image"
            /\ v = opt_get (opt_get (prop body "params") "arguments")
                     "imageUrl")
           \/ (prop body "jsonrpc" <> JStr "2.0" /\ v = prop body "image")).
Proof.
  unfold run.
  destruct (serve_paths req [])
    as [(Hm & ->)
       |[(Hm & e & _ & ->)
        |[(Hm & props & E & Hrpc & Hother & ->)
         |[(Hm & props & E & Hrpc & Hmethod & Hname & ->)
          |(Hm & body & E & Hbody & Hrpc & ->)]]]].
  - now left.
  - now left.
  - left. apply other_methods_are_quiet.
  - rewrite tool_call_runs.
    destruct (to_boolean _) eqn:Hurl; [|now left].
    right. eexists _, _. repeat split; try eassumption.
    left. repeat split; assumption.
  - rewrite legacy_runs by assumption.
    destruct (to_boolean _) eqn:Himage; [|now left].
    right. eexists _, _. repeat split; try eassumption.
    right. now split.
Qed.

(** X12. Every response has status 200, 400 or 500.  Status 400 is for a
    body outside the protocol without a truthy [image], and comes without a
    call of the client.  Status 500 is for a body that cannot be read, for
    the body [null], for a body outside the protocol on whose [image] the
    client throws, and for a body of the protocol whose method is none of the
    three and cannot be printed in the message of the error -32601. *)
Theorem statuses_and_their_causes (req : Request Num) :
  exists resp,
    fst (handle req) = Return resp
    /\ (resp_status resp = 200%Z
        \/ (resp_status resp = 400%Z
            /\ snd (handle req) = []
            /\ exists body,
                 req_json req = Return body
                 /\ prop body "jsonrpc" <> JStr "2.0"
                 /\ to_boolean (prop body "image") = false)
        \/ (resp_status resp = 500%Z
            /\ ((exists e, req_json req = Throw e)
                \/ (exists body,
                      req_json req = Return body /\ is_nullish body = true)
                \/ (exists body e,
                      req_json req = Return body
                      /\ prop body "jsonrpc" <> JStr "2.0"
                      /\ to_boolean (prop body "image") = true
                      /\ analyze (prop body "image") = Throw e)
                \/ (exists body e,
                      req_json req = Return body
                      /\ prop body "jsonrpc" = JStr "2.0"
                      /\ prop body "method" <> JStr "initialize"
                      /\ prop body "method" <> JStr "tools/list"
                      /\ prop body "method" <> JStr "tools/call"
                      /\ to_string (prop body "method") = Throw e)))).
Proof.
  unfold run.
  destruct (serve_paths req [])
    as [(Hm & ->)
       |[(Hm & e & Hcause & ->)
        |[(Hm & props & E & Hrpc & Hother & ->)
         |[(Hm & props & E & Hrpc & Hmethod & Hname & ->)
          |(Hm & body & E & Hbody & Hrpc & ->)]]]].
  - eexists. split; [reflexivity|]. now left.
  - eexists. split; [reflexivity|]. right. right. split; [reflexivity|].
    destruct Hcause as [E|(body & E & Hbody)].
    + left. now exists e.
    + right. left. now exists body.
  - destruct (handleMCPRequest_outcomes (JObj props) eq_refl)
      as [(envelope & Hsync & _)|(e & Hsync & Hprint & _ & H1 & H2 & H3)].
    + rewrite other_methods_run with (envelope := envelope) by assumption.
      eexists. split; [reflexivity|]. now left.
    + rewrite other_methods_throw with (e := e) by assumption.
      eexists. split; [reflexivity|]. right. right.
      split; [reflexivity|]. right. right. right.
      exists (JObj props), e. repeat split; assumption.
  - rewrite tool_call_runs.
    destruct (to_boolean _); eexists; (split; [reflexivity|]); now left.
  - rewrite legacy_runs by assumption.
    destruct (to_boolean (prop body "image")) eqn:Himage.
    + destruct (analyze (prop body "image")) as [foodData|e] eqn:Hcall;
        eexists; (split; [reflexivity|]); [now left|].
      right. right. split; [reflexivity|]. right. right. left.
      now exists body, e.
    + eexists. split; [reflexivity|]. right. left.
      split; [reflexivity|]. split; [reflexivity|]. now exists body.
Qed.

(** *** The client *)

Lemma analyze_of_content (imageUrl : Value) (response : FetchResponse Num)
      (data : Value) (s : string) :
  fetch (vision_request env_OPENAI_API_KEY imageUrl) = Return response ->
  ok response = true ->
  json response = Return data ->
  content_of data = JStr s ->
  s <> "" ->
  analyze imageUrl = JSON_parse (trim (replace_fences s)).
Proof.
  intros Hfetch Hok Hjson Hcontent Hs.
  assert (Hdata : is_nullish data = false)
    by (destruct data; (discriminate || reflexivity)).
  unfold analyzeFoodImage. rewrite Hfetch. unfold obind.
  rewrite Hok, Hjson. simpl negb. cbv iota.
  rewrite get_of_value by assumption. fold (content_of data).
  rewrite Hcontent. destruct s; [contradiction|]. reflexivity.
Qed.

(** X13. [analyzeFoodImage] returns a value only as the result of
    [JSON.parse] on the cleaned content of a reply: the outbound call was
    answered with a success, the body of the answer was read, and its
    [choices[0].message.content] was a string that is not empty. *)
Theorem analyzeFoodImage_returns_parsed_content (imageUrl value : Value) :
  analyze imageUrl = Return value ->
  exists response data s,
    fetch (vision_request env_OPENAI_API_KEY imageUrl) = Return response
    /\ ok response = true
    /\ json response = Return data
    /\ content_of data = JStr s
    /\ s <> ""
    /\ JSON_parse (trim (replace_fences s)) = Return value.
Proof.
  unfold analyzeFoodImage, obind.
  destruct (fetch _) as [response|] eqn:Hfetch; [|discriminate].
  destruct (ok response) eqn:Hok; [|discriminate]. simpl negb. cbv iota.
  destruct (json response) as [data|] eqn:Hjson; [|discriminate].
  destruct (is_nullish data) eqn:Hdata.
  { destruct data; discriminate. }
  rewrite get_of_value by assumption. fold (content_of data).
  destruct (to_boolean (content_of data)) eqn:Htruthy; [|discriminate].
  simpl negb. cbv iota.
  destruct (content_of data) as [| |b|n|s|items|props] eqn:Hcontent;
    try discriminate.
  simpl clean. intro Hparse.
  exists response, data, s. repeat split; try assumption.
  intros ->. discriminate.
Qed.

(** X14. A content that is truthy and not a string (a number, [true], an
    array, an object) has no [replace]: the client throws the TypeError of
    the call, and [JSON.parse] is not reached. *)
Theorem content_other_than_a_string_throws (imageUrl : Value)
        (response : FetchResponse Num) (data : Value) :
  fetch (vision_request env_OPENAI_API_KEY imageUrl) = Return response ->
  ok response = true ->
  json response = Return data ->
  to_boolean (content_of data) = true ->
  (forall s, content_of data <> JStr s) ->
  analyze imageUrl = Throw (mkError "content.replace is not a function").
Proof.
  intros Hfetch Hok Hjson Htruthy Hshape.
  assert (Hdata : is_nullish data = false)
    by (destruct data; (discriminate || reflexivity)).
  unfold analyzeFoodImage. rewrite Hfetch. unfold obind.
  rewrite Hok, Hjson. simpl negb. cbv iota.
  rewrite get_of_value by assumption. fold (content_of data).
  rewrite Htruthy. simpl negb. cbv iota.
  destruct (content_of data) as [| |b|n|s|items|props]; try reflexivity.
  now contradiction (Hshape s).
Qed.

(** X15. A reply whose content is an object text without three backquotes in
    a row, between [```json] (or [```] alone) and [```] on lines of their
    own, is handled like the bare text: the client returns what [JSON.parse]
    returns for the object text, and throws what it throws. *)
Theorem fenced_object_parses_like_bare (imageUrl : Value)
        (response : FetchResponse Num) (data : Value) (q : string) :
  fetch (vision_request env_OPENAI_API_KEY imageUrl) = Return response ->
  ok response = true ->
  json response = Return data ->
  ~ includes "```" q ->
  content_of data = JStr (fenced q)
  \/ content_of data = JStr (plainly_fenced q)
  \/ content_of data = JStr (bare q) ->
  analyze imageUrl = JSON_parse (bare q).
Proof.
  intros Hfetch Hok Hjson Hq [Hcontent|[Hcontent|Hcontent]];
    rewrite (analyze_of_content Hfetch Hok Hjson Hcontent) by discriminate;
    f_equal; now apply brace_text_cleans.
Qed.

End Coverage.

(** ** The same at work *)

Lemma tools_list_names_the_tool_witness :
  let req := POST tools_list_request in
  (req_method req <> "OPTIONS"
   /\ req_json req = Return tools_list_request
   /\ prop tools_list_request "jsonrpc" = JStr "2.0"
   /\ prop tools_list_request "method" = JStr "tools/list")
  /\ exists tool : JSValue Z,
       run apple_parser fetch_offline None req =
         (Return
            (mkResponse 200 json_headers
               (JSON_stringify
                  (JObj [("jsonrpc", JStr "2.0");
                         ("id", JNum 5%Z);
                         ("result", JObj [("tools", JArr [tool])])]))),
          [])
       /\ prop tool "name" = JStr "analyze_food_image"
       /\ prop (prop tool "inputSchema") "required" = JArr [JStr "imageUrl"].
Proof.
  intro req.
  assert (Hm : req_method req <> "OPTIONS") by discriminate.
  assert (He : req_json req = Return tools_list_request) by reflexivity.
  assert (Hrpc : prop tools_list_request "jsonrpc" = JStr "2.0")
    by reflexivity.
  assert (Hmethod : prop tools_list_request "method" = JStr "tools/list")
    by reflexivity.
  split; [repeat split; assumption|].
  destruct (tools_list_names_the_tool apple_parser fetch_offline None
              req Hm He Hrpc Hmethod)
    as (tool & Hrun & _ & _ & Hname & Hrequired & _).
  exists tool. split; [exact Hrun | split; [exact Hname | exact Hrequired]].
Defined.

(** A request that is a string, not an object: the error -32600, and no
    [id]. *)
Lemma handleMCPRequest_answers_an_envelope_witness :
  let request : JSValue Z := JStr "ping" in
  is_nullish request = false
  /\ handleMCPRequest request
     = Return
         (JObj [("jsonrpc", JStr "2.0");
                ("id", JUndefined);
                ("error",
                 JObj [("code", JNum (-32600)%Z);
                       ("message",
                        JStr "Invalid Request: jsonrpc must be 2.0")])]).
Proof.
  intro request.
  assert (Hreq : is_nullish request = false) by reflexivity.
  split; [exact Hreq|].
  destruct (handleMCPRequest_answers_an_envelope request Hreq)
    as [(envelope & Hsync & _)|(e & Hsync & _)];
    [reflexivity | discriminate Hsync].
Defined.

(** A call of the tool while the network is down. *)
Lemma protocol_requests_get_an_envelope_witness :
  let body := analyze_request (JObj [("imageUrl", photo)]) in
  let req := POST body in
  (req_method req <> "OPTIONS"
   /\ req_json req = Return body
   /\ prop body "jsonrpc" = JStr "2.0")
  /\ exists envelope,
       fst (run apple_parser fetch_offline None req)
         = Return (mkResponse 200 json_headers (JSON_stringify envelope))
       /\ is_envelope (JNum 9%Z) envelope.
Proof.
  intros body req.
  assert (Hm : req_method req <> "OPTIONS") by discriminate.
  assert (He : req_json req = Return body) by reflexivity.
  assert (Hrpc : prop body "jsonrpc" = JStr "2.0") by reflexivity.
  split; [repeat split; assumption|].
  destruct (protocol_requests_get_an_envelope apple_parser fetch_offline
              None req Hm He Hrpc)
    as [Hanswer|(e & Hprint & _)]; [exact Hanswer | discriminate Hprint].
Defined.

(** A call of the tool with an empty address. *)
Lemma falsy_imageUrl_is_invalid_params_witness :
  let body := analyze_request (JObj [("imageUrl", JStr "")]) in
  let req := POST body in
  (req_method req <> "OPTIONS"
   /\ req_json req = Return body
   /\ prop body "jsonrpc" = JStr "2.0"
   /\ prop body "method" = JStr "tools/call"
   /\ opt_get (prop body "params") "name" = JStr "analyze_food_image"
   /\ to_boolean
        (opt_get (opt_get (prop body "params") "arguments") "imageUrl")
      = false)
  /\ run apple_parser (fetch_replies apple_reply) None req =
       (Return
          (mkResponse 200 json_headers
             (JSON_stringify
                (JObj [("jsonrpc", JStr "2.0");
                       ("id", JNum 9%Z);
                       ("error",
                        JObj [("code", JNum (-32602)%Z);
                              ("message",
                               JStr
                                 "Invalid params: imageUrl is required")])]))),
        []).
Proof.
  intros body req.
  assert (Hm : req_method req <> "OPTIONS") by discriminate.
  assert (He : req_json req = Return body) by reflexivity.
  assert (Hrpc : prop body "jsonrpc" = JStr "2.0") by reflexivity.
  assert (Hmethod : prop body "method" = JStr "tools/call") by reflexivity.
  assert (Hname : opt_get (prop body "params") "name"
                  = JStr "analyze_food_image") by reflexivity.
  assert (Hurl : to_boolean
                   (opt_get (opt_get (prop body "params") "arguments")
                      "imageUrl") = false) by reflexivity.
  split; [repeat split; assumption|].
  exact (proj1 (falsy_imageUrl_is_invalid_params apple_parser
                  (fetch_replies apple_reply) None req Hm He Hrpc Hmethod
                  Hname Hurl)).
Defined.

(** A call of the tool with a number for an address. *)
Lemma truthy_imageUrl_reaches_the_client_witness :
  let body := analyze_request (JObj [("imageUrl", JNum 7%Z)]) in
  let req := POST body in
  (req_method req <> "OPTIONS"
   /\ req_json req = Return body
   /\ prop body "jsonrpc" = JStr "2.0"
   /\ prop body "method" = JStr "tools/call"
   /\ opt_get (prop body "params") "name" = JStr "analyze_food_image"
   /\ to_boolean (JNum 7%Z) = true)
  /\ snd (run apple_parser (fetch_replies apple_reply) None req)
     = [Invoked (JNum 7%Z) (Return apple)].
Proof.
  intros body req.
  assert (Hm : req_method req <> "OPTIONS") by discriminate.
  assert (He : req_json req = Return body) by reflexivity.
  assert (Hrpc : prop body "jsonrpc" = JStr "2.0") by reflexivity.
  assert (Hmethod : prop body "method" = JStr "tools/call") by reflexivity.
  assert (Hname : opt_get (prop body "params") "name"
                  = JStr "analyze_food_image") by reflexivity.
  assert (Hurl : to_boolean (JNum 7%Z) = true) by reflexivity.
  split; [repeat split; assumption|].
  exact (truthy_imageUrl_reaches_the_client apple_parser
           (fetch_replies apple_reply) None req Hm He Hrpc Hmethod Hname
           Hurl).
Defined.

(** A request with an empty body. *)
Lemma unreadable_body_is_500_witness :
  let e := mkError "Unexpected end of JSON input" in
  let req : Request Z := mkRequest "POST" (Throw e) in
  (req_method req <> "OPTIONS" /\ req_json req = Throw e)
  /\ run apple_parser fetch_offline None req
     = (Return (mkResponse 500 json_headers (internal_error e)), []).
Proof.
  intros e req.
  assert (Hm : req_method req <> "OPTIONS") by discriminate.
  assert (He : req_json req = Throw e) by reflexivity.
  split; [split; assumption|].
  exact (unreadable_body_is_500 apple_parser fetch_offline None req Hm He).
Defined.

Lemma null_body_is_500_witness :
  let req : Request Z := POST JNull in
  (req_method req <> "OPTIONS" /\ req_json req = Return JNull)
  /\ run apple_parser fetch_offline None req =
       (Return
          (mkResponse 500 json_headers
             (internal_error
                (mkError
                   "Cannot read properties of null (reading 'jsonrpc')"))),
        []).
Proof.
  intro req.
  assert (Hm : req_method req <> "OPTIONS") by discriminate.
  assert (He : req_json req = Return JNull) by reflexivity.
  split; [split; assumption|].
  exact (null_body_is_500 apple_parser fetch_offline None req Hm He).
Defined.

(** A body that is an array. *)
Lemma non_object_body_is_400_witness :
  let body : JSValue Z := JArr [JNum 1%Z] in
  let req := POST body in
  (req_method req <> "OPTIONS"
   /\ req_json req = Return body
   /\ is_nullish body = false
   /\ forall props, body <> JObj props)
  /\ run apple_parser (fetch_replies apple_reply) None req
     = (Return (mkResponse 400 json_headers invalid_format), []).
Proof.
  intros body req.
  assert (Hm : req_method req <> "OPTIONS") by discriminate.
  assert (He : req_json req = Return body) by reflexivity.
  assert (Hbody : is_nullish body = false) by reflexivity.
  assert (Hshape : forall props, body <> JObj props)
    by (intro props; discriminate).
  split; [repeat split; assumption|].
  exact (non_object_body_is_400 apple_parser (fetch_replies apple_reply)
           None req Hm He Hbody Hshape).
Defined.

(** A legacy request while the network is down. *)
Lemma legacy_failure_is_500_witness :
  let body : JSValue Z := JObj [("image", photo)] in
  let req := POST body in
  let e := mkError "error sending request" in
  (req_method req <> "OPTIONS"
   /\ req_json req = Return body
   /\ prop body "jsonrpc" <> JStr "2.0"
   /\ to_boolean (prop body "image") = true
   /\ analyzeFoodImage apple_parser fetch_offline None (prop body "image")
      = Throw e)
  /\ run apple_parser fetch_offline None req
     = (Return (mkResponse 500 json_headers (internal_error e)),
        [Invoked photo (Throw e)]).
Proof.
  intros body req e.
  assert (Hm : req_method req <> "OPTIONS") by discriminate.
  assert (He : req_json req = Return body) by reflexivity.
  assert (Hrpc : prop body "jsonrpc" <> JStr "2.0") by discriminate.
  assert (Himage : to_boolean (prop body "image") = true) by reflexivity.
  assert (Hthrow : analyzeFoodImage apple_parser fetch_offline None
                     (prop body "image") = Throw e) by reflexivity.
  split; [repeat split; assumption|].
  exact (legacy_failure_is_500 apple_parser fetch_offline None req
           Hm He Hrpc Himage Hthrow).
Defined.

(** The same body sent with POST and with GET. *)
Lemma handler_ignores_the_method_witness :
  let req1 := mkRequest "POST" (Return initialize_request) in
  let req2 := mkRequest "GET" (Return initialize_request) in
  (req_method req1 <> "OPTIONS"
   /\ req_method req2 <> "OPTIONS"
   /\ req_json req1 = req_json req2)
  /\ serve apple_parser fetch_offline None req1 []
     = serve apple_parser fetch_offline None req2 [].
Proof.
  intros req1 req2.
  assert (H1 : req_method req1 <> "OPTIONS") by discriminate.
  assert (H2 : req_method req2 <> "OPTIONS") by discriminate.
  assert (He : req_json req1 = req_json req2) by reflexivity.
  split; [repeat split; assumption|].
  exact (handler_ignores_the_method apple_parser fetch_offline None
           req1 req2 [] H1 H2 He).
Defined.

(** An answer of the client traced back to the reply. *)
Lemma analyzeFoodImage_returns_parsed_content_witness :
  analyzeFoodImage apple_parser (fetch_replies apple_reply) None photo
  = Return apple
  /\ exists response data s,
       fetch_replies apple_reply (vision_request None photo) = Return response
       /\ ok response = true
       /\ json response = Return data
       /\ content_of data = JStr s
       /\ s <> ""
       /\ apple_parser (trim (replace_fences s)) = Return apple.
Proof.
  assert (Hcall : analyzeFoodImage apple_parser (fetch_replies apple_reply)
                    None photo = Return apple) by reflexivity.
  split; [exact Hcall|].
  exact (analyzeFoodImage_returns_parsed_content apple_parser
           (fetch_replies apple_reply) None photo Hcall).
Defined.

(** A reply whose content is the number 42. *)
Lemma content_other_than_a_string_throws_witness :
  let data := completion (JNum 42%Z) in
  (fetch_replies number_reply (vision_request None photo) = Return number_reply
   /\ ok number_reply = true
   /\ json number_reply = Return data
   /\ to_boolean (content_of data) = true
   /\ forall s, content_of data <> JStr s)
  /\ analyzeFoodImage apple_parser (fetch_replies number_reply) None photo
     = Throw (mkError "content.replace is not a function").
Proof.
  intro data.
  assert (Hfetch : fetch_replies number_reply (vision_request None photo)
                   = Return number_reply) by reflexivity.
  assert (Hok : ok number_reply = true) by reflexivity.
  assert (Hjson : json number_reply = Return data) by reflexivity.
  assert (Htruthy : to_boolean (content_of data) = true) by reflexivity.
  assert (Hshape : forall s, content_of data <> JStr s)
    by (intro s; discriminate).
  split; [repeat split; assumption|].
  exact (content_other_than_a_string_throws apple_parser
           (fetch_replies number_reply) None photo Hfetch Hok Hjson Htruthy
           Hshape).
Defined.

(** The empty object, fenced. *)
Lemma fenced_object_parses_like_bare_witness :
  let data : JSValue Z := completion (JStr (fenced "")) in
  let reply := mkFetchResponse true 200%Z (Return data) in
  let parser := parse_known [(bare "", JObj [])] in
  (fetch_replies reply (vision_request None photo) = Return reply
   /\ ok reply = true
   /\ json reply = Return data
   /\ ~ includes "```" ""
   /\ content_of data = JStr (fenced ""))
  /\ analyzeFoodImage parser (fetch_replies reply) None photo
     = Return (JObj []).
Proof.
  intros data reply parser.
  assert (Hfetch : fetch_replies reply (vision_request None photo)
                   = Return reply) by reflexivity.
  assert (Hok : ok reply = true) by reflexivity.
  assert (Hjson : json reply = Return data) by reflexivity.
  assert (Hq : ~ includes "```" "")
    by (intros ([|? ?] & b & E); discriminate).
  assert (Hcontent : content_of data = JStr (fenced "")) by reflexivity.
  split; [repeat split; assumption|].
  exact (fenced_object_parses_like_bare parser (fetch_replies reply) None
           photo Hfetch Hok Hjson Hq (or_introl Hcontent)).
Defined.

(** An object text without marker. *)
Lemma replace_fences_unfenced_witness :
  ~ includes "```" "{}" /\ replace_fences "{}" = "{}".
Proof.
  assert (Hs : ~ includes "```" "{}").
  { intros (a & b & E).
    do 3 (destruct a as [|? a]; [discriminate|]). discriminate. }
  split; [exact Hs|].
  exact (replace_fences_unfenced Hs).
Defined.

(** A method that is an object with a [toString] of its own. *)
Lemma unprintable_method_is_500_witness :
  let req := POST unprintable_method_request in
  let e := mkError "Cannot convert object to primitive value" in
  (req_method req <> "OPTIONS"
   /\ req_json req = Return unprintable_method_request
   /\ prop unprintable_method_request "jsonrpc" = JStr "2.0"
   /\ prop unprintable_method_request "method" <> JStr "initialize"
   /\ prop unprintable_method_request "method" <> JStr "tools/list"
   /\ prop unprintable_method_request "method" <> JStr "tools/call"
   /\ to_string (prop unprintable_method_request "method") = Throw e)
  /\ run apple_parser fetch_offline None req
     = (Return (mkResponse 500 json_headers (internal_error e)), []).
Proof.
  intros req e.
  assert (Hm : req_method req <> "OPTIONS") by discriminate.
  assert (He : req_json req = Return unprintable_method_request)
    by reflexivity.
  assert (Hrpc : prop unprintable_method_request "jsonrpc" = JStr "2.0")
    by reflexivity.
  assert (H1 : prop unprintable_method_request "method" <> JStr "initialize")
    by discriminate.
  assert (H2 : prop unprintable_method_request "method" <> JStr "tools/list")
    by discriminate.
  assert (H3 : prop unprintable_method_request "method" <> JStr "tools/call")
    by discriminate.
  assert (H4 : to_string (prop unprintable_method_request "method") = Throw e)
    by reflexivity.
  split; [repeat split; assumption|].
  exact (unprintable_method_is_500 apple_parser fetch_offline None req
           Hm He Hrpc H1 H2 H3 H4).
Defined.
